(** * Broadcast-join notebook: a shallow embedding and its properties

    The notebook [notebooks/01_broadcast_join.py] downloads three JSON
    documents (countries, users, carts), turns them into rows with list
    comprehensions, hands the rows to Spark and joins them twice.

    The embedding has two layers, as the notebook has:

    - the Python layer: decoded JSON documents are [value]s; subscripting,
      [.get], truthiness, [or], slicing, [.upper()], [float()] and f-string
      formatting are functions on [value]s that return an [outcome], so that
      an exception raised by the notebook is a result one can state facts
      about;
    - the engine layer: a DataFrame is the list of its rows, each row a
      record with the column types Spark infers for this notebook; a left
      join is the nested-loop definition of SQL's LEFT OUTER JOIN.

    Scope of the model.  Text is restricted to the code points U+0000 to
    U+00FF, one [ascii] per character.  A Python float is represented by
    the decimal number it prints as ([dec]); JSON has no NaN or infinity.
    Where the behaviour of Python or of the engine is not modelled, the
    result is [Beyond] and no statement is made about it. *)

From Stdlib Require Import ZArith String Ascii List Bool Lia.
From Stdlib Require Import Sorting.Permutation Classes.Morphisms.
From Stdlib Require Import DecimalString.
From Stdlib Require DecimalZ DecimalPos.
Import ListNotations.

Local Open Scope string_scope.
Local Open Scope Z_scope.

Set Implicit Arguments.

(* ------------------------------------------------------------------ *)
(** ** Outcomes of evaluating notebook code *)

(** The exceptions the notebook's own expressions can raise. *)
Inductive exn : Type := KeyError | TypeError | AttributeError | ValueError.

(** [Ok a]: the code evaluates to [a].  [Raise e]: it raises [e], which
    nothing catches, so the run aborts.  [Beyond]: the input leaves the
    part of Python and Spark this development models. *)
Inductive outcome (A : Type) : Type :=
| Ok (a : A)
| Raise (e : exn)
| Beyond.

Arguments Ok {A} a.
Arguments Raise {A} e.
Arguments Beyond {A}.

Definition bind {A B : Type} (c : outcome A) (k : A -> outcome B) : outcome B :=
  match c with
  | Ok a => k a
  | Raise e => Raise e
  | Beyond => Beyond
  end.

Declare Scope outcome_scope.
Delimit Scope outcome_scope with outcome.
Notation "x <- c ;; k" := (bind c (fun x => k))
  (at level 61, c at next level, right associativity) : outcome_scope.
Local Open Scope outcome_scope.

(** A list comprehension [[f(x) for x in l]]: elements are evaluated from
    left to right and the first failure ends the evaluation. *)
Fixpoint mapM {A B : Type} (f : A -> outcome B) (l : list A) : outcome (list B) :=
  match l with
  | [] => Ok []
  | x :: rest => y <- f x ;; ys <- mapM f rest ;; Ok (y :: ys)
  end.

(* ------------------------------------------------------------------ *)
(** ** Floats as decimals *)

(** [mkdec m s] is the number [m / 10^s].  The JSON literal [12.345] is
    [mkdec 12345 3]. *)
Record dec : Type := mkdec { mant : Z; scale : nat }.

Definition pow10 (n : nat) : Z := 10 ^ Z.of_nat n.

(** Spark's [F.round(col, places)] on a double column: HALF_UP rounding
    of the decimal expansion at [places] fractional digits (ties go away
    from zero). *)
Definition F_round (d : dec) (places : nat) : dec :=
  let n := (2 * Z.abs (mant d) * pow10 places + pow10 (scale d))
             / (2 * pow10 (scale d)) in
  mkdec (Z.sgn (mant d) * n) places.

(** Two decimals denote the same number. *)
Definition dec_same (a b : dec) : Prop :=
  mant a * pow10 (scale b) = mant b * pow10 (scale a).


(* ------------------------------------------------------------------ *)
(** ** Python values *)

(** What [response.json()] returns: the decoded JSON document.  A [VDict]
    lists the bindings of the decoded dictionary, each key once. *)
#[warnings="-register-all"]
Inductive value : Type :=
| VNone
| VBool (b : bool)
| VInt (z : Z)
| VFloat (d : dec)
| VStr (s : string)
| VList (l : list value)
| VDict (kv : list (string * value)).

(** Python's truth value testing, as used by [if c.get("cca2")] and by
    [or]. *)
Definition truthy (v : value) : bool :=
  match v with
  | VNone => false
  | VBool b => b
  | VInt z => negb (z =? 0)
  | VFloat d => negb (mant d =? 0)
  | VStr s => negb (String.eqb s "")
  | VList l => match l with [] => false | _ => true end
  | VDict kv => match kv with [] => false | _ => true end
  end.

(** [a or b] *)
Definition py_or (a b : value) : value := if truthy a then a else b.

Fixpoint lookup (k : string) (kv : list (string * value)) : option value :=
  match kv with
  | [] => None
  | (k', v) :: rest => if String.eqb k k' then Some v else lookup k rest
  end.

(** [v[k]] with a string literal [k]. *)
Definition subscript (v : value) (k : string) : outcome value :=
  match v with
  | VDict kv => match lookup k kv with
                | Some x => Ok x
                | None => Raise KeyError
                end
  | _ => Raise TypeError
  end.

(** [v.get(k)]: only dictionaries have the method. *)
Definition dict_get (v : value) (k : string) : outcome value :=
  match v with
  | VDict kv => match lookup k kv with
                | Some x => Ok x
                | None => Ok VNone
                end
  | _ => Raise AttributeError
  end.

Fixpoint chars (s : string) : list value :=
  match s with
  | EmptyString => []
  | String a rest => VStr (String a EmptyString) :: chars rest
  end.

(** The elements [for x in v] and [list += v] go through. *)
Definition py_iter (v : value) : outcome (list value) :=
  match v with
  | VList l => Ok l
  | VStr s => Ok (chars s)
  | VDict kv => Ok (map (fun p => VStr (fst p)) kv)
  | _ => Raise TypeError
  end.

Fixpoint prefix (n : nat) (s : string) : string :=
  match n, s with
  | S n', String a rest => String a (prefix n' rest)
  | _, _ => EmptyString
  end.

(** [v[:2]].  Slicing a dictionary fails in a way that depends on the
    Python version. *)
Definition slice2 (v : value) : outcome value :=
  match v with
  | VStr s => Ok (VStr (prefix 2 s))
  | VList l => Ok (VList (firstn 2 l))
  | VDict _ => Beyond
  | _ => Raise TypeError
  end.

(** Upper-case mapping of one character of U+0000..U+00FF.  [None]: the
    mapping leaves that range (U+00B5 and U+00FF). *)
Definition upper_char (a : ascii) : option string :=
  let n := nat_of_ascii a in
  let shifted := String (ascii_of_nat (n - 32)) EmptyString in
  let same := String a EmptyString in
  if ((97 <=? n) && (n <=? 122))%nat then Some shifted
  else if (n =? 181)%nat then None
  else if (n =? 223)%nat then Some "SS"
  else if ((224 <=? n) && (n <=? 254) && negb (n =? 247))%nat then Some shifted
  else if (n =? 255)%nat then None
  else Some same.

Fixpoint upper (s : string) : option string :=
  match s with
  | EmptyString => Some EmptyString
  | String a rest =>
      match upper_char a, upper rest with
      | Some u, Some us => Some (u ++ us)
      | _, _ => None
      end
  end.

(** [v.upper()] *)
Definition py_upper (v : value) : outcome string :=
  match v with
  | VStr s => match upper s with Some u => Ok u | None => Beyond end
  | _ => Raise AttributeError
  end.

Definition str_of_Z (z : Z) : string := NilZero.string_of_int (Z.to_int z).

(** [f"{v}"].  The [repr] of floats and containers is not modelled. *)
Definition py_format (v : value) : outcome string :=
  match v with
  | VNone => Ok "None"
  | VBool b => Ok (if b then "True" else "False")
  | VInt z => Ok (str_of_Z z)
  | VStr s => Ok s
  | _ => Beyond
  end.

(** [float(v)].  An integer converts exactly up to 2^53; parsing a string
    is not modelled. *)
Definition py_float (v : value) : outcome dec :=
  match v with
  | VInt z => if Z.abs z <=? 2 ^ 53 then Ok (mkdec z 0) else Beyond
  | VFloat d => Ok d
  | VBool b => Ok (mkdec (if b then 1 else 0) 0)
  | VStr _ => Beyond
  | _ => Raise TypeError
  end.

(* ------------------------------------------------------------------ *)
(** ** Rows: the dictionaries built by the comprehensions *)

(** Field names are those of the notebook; one module per row shape. *)

Module CountriesDict.
Record row : Type := mk { country_code : value; country_name : value; region : value }.
End CountriesDict.

Module UsersDict.
Record row : Type := mk { userId : value; country_code : string }.
End UsersDict.

Module SalesDict.
Record row : Type := mk { sale_id : string; userId : value; amount : dec }.
End SalesDict.

(** ** Rows: the DataFrames

    Column types are the ones Spark infers when the APIs answer with the
    types they document: identifiers are 64-bit integers, codes and names
    are strings.  A column Spark may fill with null has an [option] type. *)

Module Countries.
Record row : Type := mk { country_code : string; country_name : string; region : option string }.
End Countries.

Module Users.
Record row : Type := mk { userId : Z; country_code : string }.
End Users.

Module Sales.
Record row : Type := mk { sale_id : string; userId : Z; amount : dec }.
End Sales.

(** [df_sales.join(df_users, on="userId", how="left")] *)
Module SalesUsers.
Record row : Type :=
  mk { userId : Z; sale_id : string; amount : dec; country_code : option string }.
End SalesUsers.

(** The sales fact table returned by [get_sales_df]. *)
Module Fact.
Record row : Type := mk { sale_id : string; country_code : option string; amount : dec }.
End Fact.

(** [df_sales.join(broadcast(df_countries), on="country_code", how="left")] *)
Module FactCountries.
Record row : Type :=
  mk { country_code : option string; sale_id : string; amount : dec;
       country_name : option string; region : option string }.
End FactCountries.

(** The final output [df_enriched]. *)
Module Enriched.
Record row : Type :=
  mk { sale_id : string; amount : dec;
       country_name : option string; region : option string }.
End Enriched.

(* ------------------------------------------------------------------ *)
(** ** The engine: left outer join *)

Section LeftJoin.
Variables L R O : Type.
(** the join condition; a null key makes it false *)
Variable matches : L -> R -> bool.
(** the output row for a matching pair, and for a left row without match *)
Variable both : L -> R -> O.
Variable left_only : L -> O.

Definition join_row (r : list R) (x : L) : list O :=
  match filter (matches x) r with
  | [] => [left_only x]
  | ms => map (both x) ms
  end.

Definition left_join (l : list L) (r : list R) : list O :=
  flat_map (join_row r) l.
End LeftJoin.

(** An integer column holds 64-bit values. *)
Definition to_long (v : value) : outcome Z :=
  match v with
  | VInt z => if (- 2 ^ 63 <=? z) && (z <? 2 ^ 63) then Ok z else Beyond
  | _ => Beyond
  end.

Definition to_string (v : value) : outcome string :=
  match v with
  | VStr s => Ok s
  | _ => Beyond
  end.

Definition to_nullable_string (v : value) : outcome (option string) :=
  match v with
  | VStr s => Ok (Some s)
  | VNone => Ok None
  | _ => Beyond
  end.

(** [spark.createDataFrame(rows)] infers the schema from the rows: an
    empty list raises [ValueError]; a column that holds only [None] has no
    type, which is left out of the model, as are cells of other types than
    the ones above. *)
Definition createDataFrame {D T : Type} (convert : D -> outcome T) (rows : list D)
  : outcome (list T) :=
  match rows with
  | [] => Raise ValueError
  | _ => mapM convert rows
  end.

Definition countries_schema (d : CountriesDict.row) : outcome Countries.row :=
  code <- to_string (CountriesDict.country_code d) ;;
  name <- to_string (CountriesDict.country_name d) ;;
  reg <- to_nullable_string (CountriesDict.region d) ;;
  Ok (Countries.mk code name reg).

Definition users_schema (d : UsersDict.row) : outcome Users.row :=
  uid <- to_long (UsersDict.userId d) ;;
  Ok (Users.mk uid (UsersDict.country_code d)).

Definition sales_schema (d : SalesDict.row) : outcome Sales.row :=
  uid <- to_long (SalesDict.userId d) ;;
  Ok (Sales.mk (SalesDict.sale_id d) uid (SalesDict.amount d)).

Definition has_region (d : Countries.row) : bool :=
  match Countries.region d with Some _ => true | None => false end.

(* ------------------------------------------------------------------ *)
(** ** get_countries_df *)

(** The dictionary display of the comprehension, lines 29-33. *)
Definition country_dict (c : value) : outcome CountriesDict.row :=
  code <- dict_get c "cca2" ;;
  name <- subscript c "name" ;;
  common <- subscript name "common" ;;
  reg <- dict_get c "region" ;;
  Ok (CountriesDict.mk code common reg).

(** [rows = [ {...} for c in data if c.get("cca2") ]]: the condition is
    evaluated first, the display only for the entries that pass. *)
Fixpoint rows (data : list value) : outcome (list CountriesDict.row) :=
  match data with
  | [] => Ok []
  | c :: rest =>
      code <- dict_get c "cca2" ;;
      if truthy code
      then r <- country_dict c ;; rs <- rows rest ;; Ok (r :: rs)
      else rows rest
  end.

(** [data] is the decoded body of the countries request.  Spark cannot
    type the [region] column when no row has a region; that case is not
    modelled. *)
Definition get_countries_df (data : value) : outcome (list Countries.row) :=
  entries <- py_iter data ;;
  rs <- rows entries ;;
  df <- createDataFrame countries_schema rs ;;
  if existsb has_region df then Ok df else Beyond.

(* ------------------------------------------------------------------ *)
(** ** get_sales_df *)

(** The loop [for i in range(max_pages): acc += get(url.format(i * 100)).json()[key]],
    entered with [n] iterations left at index [i].  [endpoint skip] is the
    decoded body of the request with [skip] in its query. *)
Fixpoint fetch_loop (endpoint : nat -> value) (key : string) (i n : nat)
    (acc : list value) : outcome (list value) :=
  match n with
  | O => Ok acc
  | S n' =>
      page <- subscript (endpoint (i * 100)%nat) key ;;
      items <- py_iter page ;;
      fetch_loop endpoint key (S i) n' (acc ++ items)
  end.

Definition fetch (endpoint : nat -> value) (key : string) (max_pages : nat)
  : outcome (list value) :=
  fetch_loop endpoint key 0 max_pages [].

(** [(u["address"]["country"] or "XX")[:2].upper()] *)
Definition derive_country_code (u : value) : outcome string :=
  address <- subscript u "address" ;;
  country <- subscript address "country" ;;
  head <- slice2 (py_or country (VStr "XX")) ;;
  py_upper head.

Definition users_row (u : value) : outcome UsersDict.row :=
  uid <- subscript u "id" ;;
  code <- derive_country_code u ;;
  Ok (UsersDict.mk uid code).

Definition sales_row (cart : value) : outcome SalesDict.row :=
  cid <- subscript cart "id" ;;
  sid <- py_format cid ;;
  uid <- subscript cart "userId" ;;
  total <- subscript cart "total" ;;
  amt <- py_float total ;;
  Ok (SalesDict.mk sid uid amt).

Definition join_users (df_sales : list Sales.row) (df_users : list Users.row)
  : list SalesUsers.row :=
  left_join
    (fun s u => Sales.userId s =? Users.userId u)
    (fun s u => SalesUsers.mk (Sales.userId s) (Sales.sale_id s) (Sales.amount s)
                  (Some (Users.country_code u)))
    (fun s => SalesUsers.mk (Sales.userId s) (Sales.sale_id s) (Sales.amount s) None)
    df_sales df_users.

(** [.select("sale_id", "country_code", "amount")] *)
Definition select_fact (j : SalesUsers.row) : Fact.row :=
  Fact.mk (SalesUsers.sale_id j) (SalesUsers.country_code j) (SalesUsers.amount j).

(** [.withColumn("amount", F.round("amount", 2))] *)
Definition round_amount (f : Fact.row) : Fact.row :=
  Fact.mk (Fact.sale_id f) (Fact.country_code f) (F_round (Fact.amount f) 2).

(** Lines 80-84. *)
Definition sales_fact (df_sales : list Sales.row) (df_users : list Users.row)
  : list Fact.row :=
  map round_amount (map select_fact (join_users df_sales df_users)).

Record endpoints : Type :=
  { countries : value; users : nat -> value; carts : nat -> value }.

Definition get_sales_df (api : endpoints) (max_pages : nat) : outcome (list Fact.row) :=
  us <- fetch (users api) "users" max_pages ;;
  users_rows <- mapM users_row us ;;
  df_users <- createDataFrame users_schema users_rows ;;
  cs <- fetch (carts api) "carts" max_pages ;;
  sales_rows <- mapM sales_row cs ;;
  df_sales <- createDataFrame sales_schema sales_rows ;;
  Ok (sales_fact df_sales df_users).

(* ------------------------------------------------------------------ *)
(** ** The broadcast join and the whole notebook *)

Definition code_matches (f : Fact.row) (c : Countries.row) : bool :=
  match Fact.country_code f with
  | Some code => String.eqb code (Countries.country_code c)
  | None => false
  end.

Definition join_countries (df_sales : list Fact.row) (df_countries : list Countries.row)
  : list FactCountries.row :=
  left_join code_matches
    (fun f c => FactCountries.mk (Fact.country_code f) (Fact.sale_id f) (Fact.amount f)
                  (Some (Countries.country_name c)) (Countries.region c))
    (fun f => FactCountries.mk (Fact.country_code f) (Fact.sale_id f) (Fact.amount f)
                None None)
    df_sales df_countries.

(** [.select("sale_id", "amount", "country_name", "region")] *)
Definition select_enriched (j : FactCountries.row) : Enriched.row :=
  Enriched.mk (FactCountries.sale_id j) (FactCountries.amount j)
    (FactCountries.country_name j) (FactCountries.region j).

(** Lines 96-99.  [broadcast] is a hint to the planner and does not change
    the rows. *)
Definition df_enriched (df_sales : list Fact.row) (df_countries : list Countries.row)
  : list Enriched.row :=
  map select_enriched (join_countries df_sales df_countries).

(** Lines 90-99, with [max_pages=20]. *)
Definition notebook (api : endpoints) : outcome (list Enriched.row) :=
  df_countries <- get_countries_df (countries api) ;;
  df_sales <- get_sales_df api 20 ;;
  Ok (df_enriched df_sales df_countries).

(** The test of the comprehension in [get_countries_df]: the entry has a
    truthy ["cca2"]. *)
Definition has_code (c : value) : bool :=
  match dict_get c "cca2" with
  | Ok code => truthy code
  | _ => false
  end.

(* ------------------------------------------------------------------ *)
(** ** Runs on the engine

    The functions above enumerate each table in one fixed order.  Spark
    holds a table as a bag of rows spread over partitions and promises no
    order, neither for [createDataFrame] nor for the result of a join.
    [run api out] says that [out] is a possible content of [df_enriched],
    in the order one run happens to enumerate it. *)

Definition countries_table (data : value) (df_countries : list Countries.row) : Prop :=
  exists in_order,
    get_countries_df data = Ok in_order /\ Permutation in_order df_countries.

Definition sales_table (api : endpoints) (max_pages : nat) (facts : list Fact.row)
  : Prop :=
  exists us users_rows users_in_order df_users cs sales_rows sales_in_order df_sales,
    fetch (users api) "users" max_pages = Ok us /\
    mapM users_row us = Ok users_rows /\
    createDataFrame users_schema users_rows = Ok users_in_order /\
    Permutation users_in_order df_users /\
    fetch (carts api) "carts" max_pages = Ok cs /\
    mapM sales_row cs = Ok sales_rows /\
    createDataFrame sales_schema sales_rows = Ok sales_in_order /\
    Permutation sales_in_order df_sales /\
    Permutation (sales_fact df_sales df_users) facts.

Definition run (api : endpoints) (out : list Enriched.row) : Prop :=
  exists df_countries df_sales,
    countries_table (countries api) df_countries /\
    sales_table api 20 df_sales /\
    Permutation (df_enriched df_sales df_countries) out.

(* ------------------------------------------------------------------ *)
(** ** Sample documents and tables *)

Module Sample.
(** A country object as REST Countries returns it, cut down to the
    fields the notebook reads. *)
Definition entry (cca2 common region : string) : value :=
  VDict [("cca2", VStr cca2);
         ("name", VDict [("common", VStr common)]);
         ("region", VStr region)].

Definition user (id : Z) (country : value) : value :=
  VDict [("id", VInt id); ("address", VDict [("country", country)])].

Definition cart (id userId : Z) (total : value) : value :=
  VDict [("id", VInt id); ("userId", VInt userId); ("total", total)].

(** An endpoint with a single page of items: every later page is empty. *)
Definition single_page (key : string) (items : list value) (skip : nat) : value :=
  VDict [(key, VList (if Nat.eqb skip 0 then items else []))].

(** An endpoint that ignores [skip] and answers every request alike. *)
Definition same_page (key : string) (items : list value) (skip : nat) : value :=
  VDict [(key, VList items)].

Definition united_states : Countries.row :=
  Countries.mk "US" "United States" (Some "Americas").
Definition united_states_again : Countries.row :=
  Countries.mk "US" "United States of America" (Some "Americas").
Definition peru : Countries.row :=
  Countries.mk "PE" "Peru" (Some "Americas").

Definition sale_us : Fact.row := Fact.mk "1" (Some "US") (mkdec 1235 2).
Definition sale_unknown : Fact.row := Fact.mk "2" (Some "ZZ") (mkdec 500 2).
Definition sale_no_user : Fact.row := Fact.mk "3" None (mkdec 999 2).

(** The fact row of the spec's scenario, amount [12.345]. *)
Definition sale_unrounded : Fact.row := Fact.mk "1" (Some "US") (mkdec 12345 3).

(** One country, one user, one cart of total [12.345]. *)
Definition scenario : endpoints :=
  {| countries := VList [entry "US" "United States" "Americas"];
     users := single_page "users" [user 7 (VStr "US")];
     carts := single_page "carts" [cart 1 7 (VFloat (mkdec 12345 3))] |}.

(** Two countries, two users, three carts; the third cart's user is unknown. *)
Definition two_carts : endpoints :=
  {| countries := VList [entry "US" "United States" "Americas";
                         entry "PE" "Peru" "Americas"];
     users := single_page "users" [user 7 (VStr "US"); user 8 (VStr "peru")];
     carts := single_page "carts" [cart 1 7 (VFloat (mkdec 12345 3));
                                   cart 2 8 (VInt 40);
                                   cart 3 9 (VFloat (mkdec 5 1))] |}.

(** The users endpoint repeats its page. *)
Definition repeated_users : endpoints :=
  {| countries := VList [entry "US" "United States" "Americas"];
     users := same_page "users" [user 7 (VStr "US")];
     carts := single_page "carts" [cart 1 7 (VFloat (mkdec 12345 3))] |}.

(** As [two_carts] on the twenty pages the notebook requests; past
    them, the paginated endpoints answer with null. *)
Definition two_carts_short : endpoints :=
  {| countries := countries two_carts;
     users := fun skip => if (skip <? 2000)%nat then users two_carts skip else VNone;
     carts := fun skip => if (skip <? 2000)%nat then carts two_carts skip else VNone |}.

Definition two_carts_output : list Enriched.row :=
  [Enriched.mk "1" (mkdec 1235 2) (Some "United States") (Some "Americas");
   Enriched.mk "2" (mkdec 4000 2) (Some "Peru") (Some "Americas");
   Enriched.mk "3" (mkdec 50 2) None None].


(** A user record whose address has no ["country"] key. *)
Definition user_without_country : value :=
  VDict [("id", VInt 7); ("address", VDict [("city", VStr "Lima")])].

(** A country object without ["cca2"] and without ["name"]. *)
Definition entry_without_code : value := VDict [("region", VStr "Americas")].
End Sample.

(* ------------------------------------------------------------------ *)
(** ** Auxiliary notions for the properties below *)

(** What iteration [i] of a pagination loop appends to its list:
    [get(url.format(i * 100)).json()[key]], iterated by [+=]. *)
Definition page_items (endpoint : nat -> value) (key : string) (i : nat)
  : outcome (list value) :=
  page <- subscript (endpoint (i * 100)%nat) key ;;
  py_iter page.




(** The number of country rows a fact row joins with. *)
Definition partners (df_countries : list Countries.row) (f : Fact.row) : nat :=
  length (filter (code_matches f) df_countries).

(** The negation of a decimal. *)
Definition dec_opp (d : dec) : dec := mkdec (- mant d) (scale d).

(** Reading back the decimal digits an f-string writes for an integer. *)
Definition Z_of_str (s : string) : Z :=
  match NilZero.int_of_string s with
  | Some d => Z.of_int d
  | None => 0
  end.

(** The two columns the enriched table takes over from the carts. *)
Definition sale_columns (e : Enriched.row) : string * dec :=
  (Enriched.sale_id e, Enriched.amount e).

(** More sample documents. *)
Module Case.
(** What REST Countries answers when it fails: an object, not a list. *)
Definition error_body : value :=
  VDict [("status", VInt 404); ("message", VStr "Not Found")].

(** A country object with a code and no ["name"]. *)
Definition entry_without_name : value :=
  VDict [("cca2", VStr "PE"); ("region", VStr "Americas")].

(** A page whose body lacks the key the loop reads. *)
Definition broken_page (key : string) (items : list value) (skip : nat) : value :=
  if Nat.eqb skip 0 then VDict [(key, VList items)] else VDict [("message", VStr "oops")].

(** Two pages of two items each, then empty pages. *)
Definition two_pages (key : string) (skip : nat) : value :=
  VDict [(key, VList (if Nat.eqb skip 0 then [VInt 1; VInt 2]
                      else if Nat.eqb skip 100 then [VInt 3; VInt 4]
                      else []))].

(** A user record without ["id"]. *)
Definition user_without_id : value :=
  VDict [("address", VDict [("country", VStr "Peru")])].
End Case.

(* ------------------------------------------------------------------ *)
(** * Properties *)

Example upper_us : upper "us" = Some "US".
Proof. reflexivity. Qed.

Example format_int : py_format (VInt 42) = Ok "42" /\ py_format (VInt (-7)) = Ok "-7"
                     /\ py_format (VInt 0) = Ok "0".
Proof. repeat split. Qed.

Example round_12345 : F_round (mkdec 12345 3) 2 = mkdec 1235 2.
Proof. reflexivity. Qed.

(** ** Monadic helpers *)

Lemma bind_Ok {A B : Type} (c : outcome A) (k : A -> outcome B) (b : B) :
  bind c k = Ok b -> exists a, c = Ok a /\ k a = Ok b.
Proof.
  destruct c as [a| |]; simpl; intros H; try discriminate.
  exists a; split; [reflexivity | exact H].
Qed.

(** Inverts a chain of binds that ends in [Ok]. *)
Ltac invert_ok H :=
  repeat match type of H with
         | bind _ _ = Ok _ =>
             let a := fresh "v" in
             let E := fresh "E" in
             apply bind_Ok in H; destruct H as (a & E & H)
         | Ok _ = Ok _ => injection H as H
         end.

Lemma mapM_Forall2 {A B : Type} (f : A -> outcome B) (l : list A) (out : list B) :
  mapM f l = Ok out <-> Forall2 (fun x y => f x = Ok y) l out.
Proof.
  revert out; induction l as [|x l IH]; intros out; simpl.
  - split.
    + intros H; injection H as <-; constructor.
    + intros H; inversion H; reflexivity.
  - split.
    + intros H. invert_ok H. subst out.
      constructor; [assumption | apply IH; assumption].
    + intros H; inversion H as [|? y ? ys Hy Hys]; subst.
      rewrite Hy; simpl. apply IH in Hys. rewrite Hys. reflexivity.
Qed.

Lemma mapM_length {A B : Type} (f : A -> outcome B) (l : list A) (out : list B) :
  mapM f l = Ok out -> length out = length l.
Proof.
  intros H; apply mapM_Forall2 in H.
  symmetry; eapply Forall2_length; eassumption.
Qed.

Lemma createDataFrame_Ok {D T : Type} (convert : D -> outcome T) (l : list D)
    (df : list T) :
  createDataFrame convert l = Ok df -> mapM convert l = Ok df /\ l <> [].
Proof.
  destruct l; simpl; intros H; [discriminate|].
  split; [exact H | discriminate].
Qed.

(** ** The left join *)

Section LeftJoinFacts.
Variables L R O : Type.
Variable matches : L -> R -> bool.
Variable both : L -> R -> O.
Variable left_only : L -> O.

Local Abbreviation row_of := (join_row matches both left_only).
Local Abbreviation joined := (left_join matches both left_only).

Lemma join_row_nonempty (r : list R) (x : L) :
  (1 <= length (row_of r x))%nat.
Proof.
  unfold join_row.
  destruct (filter (matches x) r); simpl; lia.
Qed.

Lemma join_row_length (r : list R) (x : L) :
  length (row_of r x) = Nat.max 1 (length (filter (matches x) r)).
Proof.
  unfold join_row.
  destruct (filter (matches x) r) as [|m ms]; simpl; [reflexivity|].
  rewrite length_map. reflexivity.
Qed.

(** A left join never loses a left row. *)
Lemma left_join_length_ge (l : list L) (r : list R) :
  (length l <= length (joined l r))%nat.
Proof.
  unfold left_join.
  induction l as [|x l IH]; simpl; [lia|].
  rewrite length_app. pose proof (join_row_nonempty r x). lia.
Qed.

(** It has one output row per left row when no left row has two
    partners. *)
Lemma left_join_length_eq (l : list L) (r : list R) :
  (forall x, In x l -> (length (filter (matches x) r) <= 1)%nat) ->
  length (joined l r) = length l.
Proof.
  unfold left_join.
  induction l as [|x l IH]; simpl; intros H; [reflexivity|].
  rewrite length_app, join_row_length.
  rewrite IH by (intros; apply H; right; assumption).
  specialize (H x (or_introl eq_refl)). lia.
Qed.



(** Projecting the output on columns of the left row gives each left
    row's columns, once per partner and once when it has none. *)
Lemma left_join_left_columns (C : Type) (col : L -> C) (out_col : O -> C)
    (l : list L) (r : list R) :
  (forall x y, out_col (both x y) = col x) ->
  (forall x, out_col (left_only x) = col x) ->
  map out_col (joined l r)
  = flat_map (fun x => repeat (col x)
                         (Nat.max 1 (length (filter (matches x) r)))) l.
Proof.
  intros Hb Hl. unfold left_join.
  induction l as [|x l IH]; simpl; [reflexivity|].
  rewrite map_app, IH. f_equal.
  unfold join_row.
  destruct (filter (matches x) r) as [|m ms]; simpl.
  - rewrite Hl. reflexivity.
  - rewrite Hb. f_equal. clear - Hb.
    induction ms as [|m' ms IH]; simpl; [reflexivity|].
    rewrite Hb, IH. reflexivity.
Qed.
End LeftJoinFacts.

(** A predicate that pins the key selects at most one row of a table
    whose keys are pairwise distinct. *)
Lemma filter_unique_key {R K : Type} (key : R -> K) (p : R -> bool) (k : K)
    (r : list R) :
  (forall y, p y = true -> key y = k) ->
  NoDup (map key r) ->
  (length (filter p r) <= 1)%nat.
Proof.
  intros Hp. induction r as [|a r IH]; simpl; intros Hnd; [lia|].
  inversion Hnd as [|? ? Hnotin Hnd']; subst.
  destruct (p a) eqn:Ea; [|apply IH; assumption].
  simpl. destruct (filter p r) as [|b bs] eqn:E; [simpl; lia|].
  exfalso. apply Hnotin.
  assert (Hb : In b (filter p r)) by (rewrite E; left; reflexivity).
  apply filter_In in Hb. destruct Hb as [Hin Hpb].
  rewrite (Hp a Ea), <- (Hp b Hpb). apply in_map. assumption.
Qed.

Unset Implicit Arguments.

(* ------------------------------------------------------------------ *)
(** ** The enrichment join (lines 96-99) *)

Lemma code_matches_true (f : Fact.row) (c : Countries.row) :
  code_matches f c = true <-> Fact.country_code f = Some (Countries.country_code c).
Proof.
  unfold code_matches. destruct (Fact.country_code f) as [code|].
  - rewrite String.eqb_eq. split; [intros ->; reflexivity | intros H; injection H; auto].
  - split; discriminate.
Qed.

Lemma code_matches_unique (f : Fact.row) (cs : list Countries.row) :
  NoDup (map Countries.country_code cs) ->
  (length (filter (code_matches f) cs) <= 1)%nat.
Proof.
  destruct (Fact.country_code f) as [code|] eqn:E.
  - apply filter_unique_key with (k := code).
    intros c Hc. apply code_matches_true in Hc. congruence.
  - intros _. replace (filter (code_matches f) cs) with (@nil Countries.row);
      [simpl; lia|].
    induction cs as [|c cs IH]; simpl; [reflexivity|].
    unfold code_matches at 1. rewrite E. exact IH.
Qed.

(** The enriched table never has fewer rows than the fact table. *)
Lemma df_enriched_length_ge (df_sales : list Fact.row) (df_countries : list Countries.row) :
  (length df_sales <= length (df_enriched df_sales df_countries))%nat.
Proof.
  unfold df_enriched, join_countries. rewrite length_map.
  apply left_join_length_ge.
Qed.




(** C9: the enrichment join copies [sale_id] and [amount].  The pairs
    (sale_id, amount) of the output, in order, are the pairs of the fact
    rows, each as often as the row has partners in the country table and
    once when it has none; so every output row carries the two fields of
    a fact row unchanged, and every fact row has an output row. *)
Theorem enrichment_keeps_sale_id_and_amount
    (df_sales : list Fact.row) (df_countries : list Countries.row) :
  map (fun e => (Enriched.sale_id e, Enriched.amount e))
      (df_enriched df_sales df_countries)
  = flat_map (fun f => repeat (Fact.sale_id f, Fact.amount f)
                         (Nat.max 1 (length (filter (code_matches f) df_countries))))
      df_sales
  /\ (forall e, In e (df_enriched df_sales df_countries) ->
        exists f, In f df_sales /\ Enriched.sale_id e = Fact.sale_id f
                  /\ Enriched.amount e = Fact.amount f)
  /\ (forall f, In f df_sales ->
        exists e, In e (df_enriched df_sales df_countries)
                  /\ Enriched.sale_id e = Fact.sale_id f
                  /\ Enriched.amount e = Fact.amount f).
Proof.
  assert (Hcols :
    map (fun e => (Enriched.sale_id e, Enriched.amount e))
        (df_enriched df_sales df_countries)
    = flat_map (fun f => repeat (Fact.sale_id f, Fact.amount f)
                           (Nat.max 1 (length (filter (code_matches f) df_countries))))
        df_sales).
  { unfold df_enriched, join_countries. rewrite map_map.
    apply left_join_left_columns; reflexivity. }
  split; [exact Hcols|]. split.
  - intros e He.
    apply (in_map (fun e => (Enriched.sale_id e, Enriched.amount e))) in He.
    rewrite Hcols in He. apply in_flat_map in He. destruct He as (f & Hf & Hrep).
    apply repeat_spec in Hrep. injection Hrep as H1 H2.
    exists f. auto.
  - intros f Hf.
    assert (Hin : In (Fact.sale_id f, Fact.amount f)
                    (map (fun e => (Enriched.sale_id e, Enriched.amount e))
                       (df_enriched df_sales df_countries))).
    { rewrite Hcols. apply in_flat_map. exists f. split; [assumption|].
      destruct (Nat.max 1 (length (filter (code_matches f) df_countries))) eqn:E;
        [lia | left; reflexivity]. }
    apply in_map_iff in Hin. destruct Hin as (e & Heq & He).
    injection Heq as H1 H2. exists e. auto.
Qed.

Lemma enrichment_keeps_sale_id_and_amount_witness :
  exists e, In e (df_enriched [Sample.sale_us; Sample.sale_unknown]
                    [Sample.united_states; Sample.united_states_again])
            /\ Enriched.sale_id e = "2" /\ Enriched.amount e = mkdec 500 2.
Proof.
  destruct (enrichment_keeps_sale_id_and_amount
              [Sample.sale_us; Sample.sale_unknown]
              [Sample.united_states; Sample.united_states_again])
    as (_ & _ & Hall).
  apply (Hall Sample.sale_unknown). simpl. auto.
Defined.

(* ------------------------------------------------------------------ *)
(** ** The scenario of one country, one user and one cart *)

(** C6 fails as stated: handed a fact table whose amount is still
    [12.345], the enrichment join returns [12.345].  It rounds nothing;
    [F.round] is applied inside [get_sales_df], so a fact table never
    holds the unrounded amount. *)
Lemma scenario_join_does_not_round :
  df_enriched [Sample.sale_unrounded] [Sample.united_states]
  = [Enriched.mk "1" (mkdec 12345 3) (Some "United States") (Some "Americas")]
  /\ df_enriched [Sample.sale_unrounded] [Sample.united_states]
     <> [Enriched.mk "1" (mkdec 1235 2) (Some "United States") (Some "Americas")]
  /\ ~ dec_same (mkdec 12345 3) (mkdec 1235 2).
Proof.
  split; [reflexivity|]. split.
  - simpl. intros H. discriminate H.
  - unfold dec_same. simpl. vm_compute. discriminate.
Qed.

(** C6, as the code has it: when the countries endpoint returns the one
    entry (US, United States, Americas), the users endpoint one user whose
    country is ["US"] and the carts endpoint that user's one cart, with id
    1 and total 12.345, then the country table is that one row, the sales
    fact table is [(sale_id "1", country_code "US", amount 12.35)] and the
    enriched output is
    [(sale_id "1", amount 12.35, "United States", "Americas")]. *)
Theorem scenario_output :
  get_countries_df (countries Sample.scenario) = Ok [Sample.united_states]
  /\ get_sales_df Sample.scenario 20 = Ok [Fact.mk "1" (Some "US") (mkdec 1235 2)]
  /\ notebook Sample.scenario
     = Ok [Enriched.mk "1" (mkdec 1235 2) (Some "United States") (Some "Americas")].
Proof.
  repeat split.
Qed.

(* ------------------------------------------------------------------ *)
(** ** The country code of a user (line 57) *)

Lemma derive_country_code_of_string (u address : value) (s : string) :
  subscript u "address" = Ok address ->
  subscript address "country" = Ok (VStr s) ->
  s <> "" ->
  derive_country_code u = py_upper (VStr (prefix 2 s)).
Proof.
  intros Ha Hc Hs. unfold derive_country_code.
  rewrite Ha; simpl. rewrite Hc; simpl.
  unfold py_or. simpl. destruct (String.eqb_spec s ""); [contradiction|].
  reflexivity.
Qed.

(** C2, as the code has it: when the address of a user record has a
    ["country"] key whose value is falsy (the empty string or null, also
    [0], [false], an empty list or object), the derived [country_code] is
    ["XX"], and so is the one in the user's row. *)
Theorem falsy_country_gives_sentinel (u address country : value) :
  subscript u "address" = Ok address ->
  subscript address "country" = Ok country ->
  truthy country = false ->
  derive_country_code u = Ok "XX"
  /\ forall uid, subscript u "id" = Ok uid ->
       users_row u = Ok (UsersDict.mk uid "XX").
Proof.
  intros Ha Hc Hf.
  assert (H : derive_country_code u = Ok "XX").
  { unfold derive_country_code. rewrite Ha; simpl. rewrite Hc; simpl.
    unfold py_or. rewrite Hf. reflexivity. }
  split; [exact H|].
  intros uid Hid. unfold users_row. rewrite Hid; simpl. rewrite H. reflexivity.
Qed.

Lemma falsy_country_gives_sentinel_witness :
  derive_country_code (Sample.user 7 (VStr "")) = Ok "XX"
  /\ users_row (Sample.user 7 VNone) = Ok (UsersDict.mk (VInt 7) "XX").
Proof.
  split.
  - apply (falsy_country_gives_sentinel (Sample.user 7 (VStr ""))
             (VDict [("country", VStr "")]) (VStr "")); reflexivity.
  - apply (falsy_country_gives_sentinel (Sample.user 7 VNone)
             (VDict [("country", VNone)]) VNone); reflexivity.
Defined.

(** C2 fails as stated for a missing field: when the address has no
    ["country"] key the subscript raises [KeyError]; no code is derived
    and [get_sales_df] aborts. *)
Lemma missing_country_raises :
  derive_country_code Sample.user_without_country = Raise KeyError
  /\ derive_country_code Sample.user_without_country <> Ok "XX"
  /\ get_sales_df
       {| countries := VList [];
          users := Sample.single_page "users" [Sample.user_without_country];
          carts := Sample.single_page "carts" [] |} 20
     = Raise KeyError.
Proof.
  split; [reflexivity|]. split; [discriminate | reflexivity].
Qed.






(* ------------------------------------------------------------------ *)
(** ** Rows of the carts (lines 69-76) *)

Lemma sales_row_Ok (cart : value) (r : SalesDict.row) :
  sales_row cart = Ok r <->
  exists cid uid total,
    subscript cart "id" = Ok cid /\ py_format cid = Ok (SalesDict.sale_id r) /\
    subscript cart "userId" = Ok uid /\ SalesDict.userId r = uid /\
    subscript cart "total" = Ok total /\ py_float total = Ok (SalesDict.amount r).
Proof.
  unfold sales_row. split.
  - intros H. invert_ok H. subst r. simpl.
    exists v, v1, v2. repeat split; assumption.
  - intros (cid & uid & total & Hid & Hfmt & Huid & Hr & Htot & Hfl).
    rewrite Hid; simpl. rewrite Hfmt; simpl. rewrite Huid; simpl.
    rewrite Htot; simpl. rewrite Hfl; simpl.
    destruct r; simpl in *; subst; reflexivity.
Qed.

(** C7: the comprehension over the fetched carts succeeds exactly when
    every cart has the keys ["id"], ["userId"] and ["total"] with an id
    that formats and a total that converts; row by row, [sale_id] is the
    f-string of the cart's id (its decimal digits for an integer),
    [userId] is the cart's ["userId"] and [amount] is [float] of the
    cart's total. *)
Theorem sales_rows_fields (cs : list value) (sales_rows : list SalesDict.row) :
  mapM sales_row cs = Ok sales_rows <->
  Forall2
    (fun cart r =>
       exists cid uid total,
         subscript cart "id" = Ok cid /\ py_format cid = Ok (SalesDict.sale_id r) /\
         subscript cart "userId" = Ok uid /\ SalesDict.userId r = uid /\
         subscript cart "total" = Ok total /\ py_float total = Ok (SalesDict.amount r))
    cs sales_rows.
Proof.
  rewrite mapM_Forall2. split; intros H;
    (eapply Forall2_impl; [|exact H]); intros cart r Hr; apply sales_row_Ok; exact Hr.
Qed.

Lemma sales_rows_fields_witness :
  Forall2
    (fun cart r =>
       exists cid uid total,
         subscript cart "id" = Ok cid /\ py_format cid = Ok (SalesDict.sale_id r) /\
         subscript cart "userId" = Ok uid /\ SalesDict.userId r = uid /\
         subscript cart "total" = Ok total /\ py_float total = Ok (SalesDict.amount r))
    [Sample.cart 1 7 (VFloat (mkdec 12345 3)); Sample.cart 2 8 (VInt 40)]
    [SalesDict.mk "1" (VInt 7) (mkdec 12345 3); SalesDict.mk "2" (VInt 8) (mkdec 40 0)].
Proof.
  apply (proj1 (sales_rows_fields
                  [Sample.cart 1 7 (VFloat (mkdec 12345 3)); Sample.cart 2 8 (VInt 40)]
                  [SalesDict.mk "1" (VInt 7) (mkdec 12345 3);
                   SalesDict.mk "2" (VInt 8) (mkdec 40 0)])).
  reflexivity.
Defined.

(* ------------------------------------------------------------------ *)
(** ** The country table (lines 28-38) *)

Lemma Forall2_compose {A B C : Type} (P : A -> B -> Prop) (Q : B -> C -> Prop)
    (l1 : list A) (l2 : list B) (l3 : list C) :
  Forall2 P l1 l2 -> Forall2 Q l2 l3 ->
  Forall2 (fun a c => exists b, P a b /\ Q b c) l1 l3.
Proof.
  intros H; revert l3; induction H as [|a b l1 l2 Hab _ IH]; intros l3 HQ;
    inversion HQ; subst; constructor; eauto.
Qed.

Lemma Forall2_In_r {A B : Type} (P : A -> B -> Prop) (l1 : list A) (l2 : list B) (b : B) :
  Forall2 P l1 l2 -> In b l2 -> exists a, In a l1 /\ P a b.
Proof.
  induction 1 as [|a b' l1 l2 Hab _ IH]; simpl; [contradiction|].
  intros [<-|Hin].
  - exists a; auto.
  - destruct (IH Hin) as (a' & Ha' & HP). exists a'; auto.
Qed.

(** An entry without a truthy ["cca2"] is skipped before any other field
    of it is read. *)
Lemma rows_skip (c : value) (rest : list value) (code : value) :
  dict_get c "cca2" = Ok code -> truthy code = false ->
  rows (c :: rest) = rows rest.
Proof.
  intros Hc Ht. simpl. rewrite Hc; simpl. rewrite Ht. reflexivity.
Qed.

Lemma rows_Ok (entries : list value) (rs : list CountriesDict.row) :
  rows entries = Ok rs ->
  Forall2 (fun c d => country_dict c = Ok d /\ truthy (CountriesDict.country_code d) = true)
    (filter has_code entries) rs.
Proof.
  revert rs; induction entries as [|c rest IH]; intros rs; simpl.
  - intros H; injection H as <-; constructor.
  - intros H. apply bind_Ok in H. destruct H as (code & Hc & H).
    unfold has_code. rewrite Hc.
    destruct (truthy code) eqn:Ht.
    + invert_ok H. subst rs. constructor; [|apply IH; assumption].
      split; [assumption|].
      unfold country_dict in E. rewrite Hc in E; simpl in E.
      invert_ok E. subst v. simpl. exact Ht.
    + apply IH; assumption.
Qed.

(** C4, as the code has it: the rows of the country table are, in order,
    the entries of the response whose ["cca2"] is truthy; each row's
    [country_code] is that entry's ["cca2"], a non-empty string, whatever
    its length; an entry whose ["cca2"] is absent, null or empty is left
    out without reading its other fields, so without an error. *)
Theorem country_table_rows (data : value) (entries : list value)
    (df : list Countries.row) :
  py_iter data = Ok entries ->
  get_countries_df data = Ok df ->
  Forall2
    (fun c r =>
       dict_get c "cca2" = Ok (VStr (Countries.country_code r))
       /\ Countries.country_code r <> ""
       /\ (exists name, subscript c "name" = Ok name
                        /\ subscript name "common" = Ok (VStr (Countries.country_name r)))
       /\ dict_get c "region"
          = Ok (match Countries.region r with Some s => VStr s | None => VNone end))
    (filter has_code entries) df
  /\ (forall c rest code,
        dict_get c "cca2" = Ok code -> truthy code = false ->
        rows (c :: rest) = rows rest).
Proof.
  intros Hiter Hdf. split; [|intros; eapply rows_skip; eassumption].
  unfold get_countries_df in Hdf. rewrite Hiter in Hdf; simpl in Hdf.
  apply bind_Ok in Hdf. destruct Hdf as (rs & Hrows & Hdf).
  apply bind_Ok in Hdf. destruct Hdf as (df0 & Hcreate & Hdf).
  destruct (existsb has_region df0); [|discriminate]. injection Hdf as <-.
  apply createDataFrame_Ok in Hcreate. destruct Hcreate as [Hschema _].
  apply mapM_Forall2 in Hschema. apply rows_Ok in Hrows.
  pose proof (Forall2_compose _ _ _ _ _ Hrows Hschema) as H.
  eapply Forall2_impl; [|exact H].
  intros c r (d & (Hdict & Ht) & Hconv). clear H.
  unfold country_dict in Hdict. invert_ok Hdict. subst d.
  unfold countries_schema in Hconv; simpl in Hconv. simpl in Ht.
  invert_ok Hconv. subst r. simpl.
  destruct v as [| | | |s| |]; try discriminate. injection E3 as <-.
  destruct v1 as [| | | |s'| |]; try discriminate. injection E4 as <-.
  repeat split.
  - exact E.
  - intros ->. discriminate Ht.
  - exists v0. split; assumption.
  - rewrite E2. destruct v2; simpl in E5; try discriminate;
      injection E5 as <-; reflexivity.
Qed.

Lemma country_table_rows_witness :
  Forall2
    (fun c r =>
       dict_get c "cca2" = Ok (VStr (Countries.country_code r))
       /\ Countries.country_code r <> ""
       /\ (exists name, subscript c "name" = Ok name
                        /\ subscript name "common" = Ok (VStr (Countries.country_name r)))
       /\ dict_get c "region"
          = Ok (match Countries.region r with Some s => VStr s | None => VNone end))
    (filter has_code
       [Sample.entry_without_code; Sample.entry "US" "United States" "Americas"])
    [Sample.united_states].
Proof.
  apply (country_table_rows
           (VList [Sample.entry_without_code;
                   Sample.entry "US" "United States" "Americas"])
           [Sample.entry_without_code; Sample.entry "US" "United States" "Americas"]
           [Sample.united_states]); reflexivity.
Defined.

(** C4 fails as stated: the loader tests that the code is truthy, not
    that it has two letters.  An entry with the code ["USA"], and one with
    the code ["U"], are rows of the table. *)
Lemma country_code_length_unchecked :
  get_countries_df (VList [Sample.entry "USA" "United States" "Americas";
                           Sample.entry "U" "Utopia" "Nowhere"])
  = Ok [Countries.mk "USA" "United States" (Some "Americas");
        Countries.mk "U" "Utopia" (Some "Nowhere")]
  /\ String.length "USA" <> 2%nat
  /\ String.length "U" <> 2%nat.
Proof.
  split; [reflexivity|]. split; discriminate.
Qed.

(* ------------------------------------------------------------------ *)
(** ** The sales fact table (lines 48-84) *)

(** The steps of a call of [get_sales_df] that returns. *)
Lemma get_sales_df_Ok (api : endpoints) (max_pages : nat) (facts : list Fact.row) :
  get_sales_df api max_pages = Ok facts ->
  exists us users_rows df_users cs sales_rows df_sales,
    fetch (users api) "users" max_pages = Ok us /\
    mapM users_row us = Ok users_rows /\
    createDataFrame users_schema users_rows = Ok df_users /\
    fetch (carts api) "carts" max_pages = Ok cs /\
    mapM sales_row cs = Ok sales_rows /\
    createDataFrame sales_schema sales_rows = Ok df_sales /\
    facts = sales_fact df_sales df_users.
Proof.
  unfold get_sales_df. intros H. invert_ok H.
  exists v, v0, v1, v2, v3, v4. repeat split; auto.
Qed.

Lemma to_long_Ok (v : value) (z : Z) : to_long v = Ok z -> v = VInt z.
Proof.
  destruct v as [| |z'| | | |]; try discriminate. unfold to_long.
  destruct (_ && _); [|discriminate]. intros H; injection H as <-. reflexivity.
Qed.

Lemma users_row_schema (u : value) (d : UsersDict.row) (r : Users.row) :
  users_row u = Ok d -> users_schema d = Ok r ->
  subscript u "id" = Ok (VInt (Users.userId r))
  /\ derive_country_code u = Ok (Users.country_code r).
Proof.
  unfold users_row, users_schema. intros Hd Hr.
  invert_ok Hd. subst d. simpl in Hr. invert_ok Hr. subst r. simpl.
  apply to_long_Ok in E1. subst v. split; assumption.
Qed.


(** Distinct keys stay distinct along a row-by-row correspondence. *)
Lemma NoDup_map_Forall2 {A B K K' : Type} (f : A -> K) (g : B -> K') (h : K' -> K)
    (l : list A) (l' : list B) :
  Forall2 (fun a b => f a = h (g b)) l l' ->
  NoDup (map f l) -> NoDup (map g l').
Proof.
  induction 1 as [|a b l l' Hab Hall IH]; simpl; intros Hnd; [constructor|].
  inversion Hnd as [|? ? Hnotin Hnd']; subst.
  constructor; [|apply IH; assumption].
  intros Hin. apply Hnotin.
  apply in_map_iff in Hin. destruct Hin as (b' & Hg & Hb').
  destruct (Forall2_In_r _ _ _ _ Hall Hb') as (a' & Ha' & Hfa').
  apply in_map_iff. exists a'. split; [|assumption].
  rewrite Hfa', Hg, <- Hab. reflexivity.
Qed.

Lemma sales_fact_length (df_sales : list Sales.row) (df_users : list Users.row) :
  length (sales_fact df_sales df_users) = length (join_users df_sales df_users).
Proof.
  unfold sales_fact. rewrite !length_map. reflexivity.
Qed.

(** The fact table never has fewer rows than there are carts. *)
Lemma sales_fact_row_count_ge (api : endpoints) (max_pages : nat)
    (cs : list value) (facts : list Fact.row) :
  fetch (carts api) "carts" max_pages = Ok cs ->
  get_sales_df api max_pages = Ok facts ->
  (length cs <= length facts)%nat.
Proof.
  intros Hcs H. apply get_sales_df_Ok in H.
  destruct H as (us & urows & dfu & cs' & srows & dfs &
                 Hus & Hur & Hdfu & Hcs' & Hsr & Hdfs & ->).
  rewrite Hcs in Hcs'. injection Hcs' as <-.
  apply createDataFrame_Ok in Hdfs. destruct Hdfs as [Hdfs _].
  apply mapM_length in Hdfs. apply mapM_length in Hsr.
  rewrite sales_fact_length, <- Hsr, <- Hdfs.
  unfold join_users. apply left_join_length_ge.
Qed.

(** C3, as the code has it: when no two fetched user records have the
    same ["id"], the sales fact table has exactly as many rows as there
    are fetched cart records, whether or not a cart's user was fetched. *)
Theorem sales_fact_row_count (api : endpoints) (max_pages : nat)
    (us cs : list value) (facts : list Fact.row) :
  fetch (users api) "users" max_pages = Ok us ->
  fetch (carts api) "carts" max_pages = Ok cs ->
  get_sales_df api max_pages = Ok facts ->
  NoDup (map (fun u => subscript u "id") us) ->
  length facts = length cs.
Proof.
  intros Hus Hcs H Hnd. apply get_sales_df_Ok in H.
  destruct H as (us' & urows & dfu & cs' & srows & dfs &
                 Hus' & Hur & Hdfu & Hcs' & Hsr & Hdfs & ->).
  rewrite Hus in Hus'. injection Hus' as <-.
  rewrite Hcs in Hcs'. injection Hcs' as <-.
  apply createDataFrame_Ok in Hdfu. destruct Hdfu as [Hdfu _].
  apply createDataFrame_Ok in Hdfs. destruct Hdfs as [Hdfs _].
  assert (Hkeys : NoDup (map Users.userId dfu)).
  { apply mapM_Forall2 in Hur. apply mapM_Forall2 in Hdfu.
    pose proof (Forall2_compose _ _ _ _ _ Hur Hdfu) as Hrel.
    apply (NoDup_map_Forall2 (fun u => subscript u "id") Users.userId
             (fun z => Ok (VInt z)) us dfu); [|assumption].
    eapply Forall2_impl; [|exact Hrel].
    intros u r (d & Hd & Hr). apply (users_row_schema u d r Hd Hr). }
  apply mapM_length in Hdfs. apply mapM_length in Hsr.
  rewrite sales_fact_length, <- Hsr, <- Hdfs.
  unfold join_users. apply left_join_length_eq.
  intros s _. apply filter_unique_key with (key := Users.userId) (k := Sales.userId s);
    [|assumption].
  intros u Hu. apply Z.eqb_eq in Hu. symmetry; exact Hu.
Qed.

Lemma sales_fact_row_count_witness :
  length [Fact.mk "1" (Some "US") (mkdec 1235 2);
          Fact.mk "2" (Some "PE") (mkdec 4000 2);
          Fact.mk "3" None (mkdec 50 2)]
  = length [Sample.cart 1 7 (VFloat (mkdec 12345 3));
            Sample.cart 2 8 (VInt 40);
            Sample.cart 3 9 (VFloat (mkdec 5 1))].
Proof.
  apply (sales_fact_row_count Sample.two_carts 20
           [Sample.user 7 (VStr "US"); Sample.user 8 (VStr "peru")]).
  - reflexivity.
  - reflexivity.
  - reflexivity.
  - simpl. repeat constructor; simpl; intuition discriminate.
Defined.

(** C3 fails as stated: when the users endpoint answers two requests with
    the same page, the one fetched cart becomes two fact rows. *)
Lemma repeated_user_page_duplicates_rows :
  fetch (carts Sample.repeated_users) "carts" 2
  = Ok [Sample.cart 1 7 (VFloat (mkdec 12345 3))]
  /\ get_sales_df Sample.repeated_users 2
     = Ok [Fact.mk "1" (Some "US") (mkdec 1235 2);
           Fact.mk "1" (Some "US") (mkdec 1235 2)]
  /\ length [Fact.mk "1" (Some "US") (mkdec 1235 2);
             Fact.mk "1" (Some "US") (mkdec 1235 2)]
     <> length [Sample.cart 1 7 (VFloat (mkdec 12345 3))].
Proof.
  split; [reflexivity|]. split; [reflexivity | discriminate].
Qed.

(* ------------------------------------------------------------------ *)
(** ** Runs on the engine: the output as a bag of rows *)

(** The loop reads the endpoint at the offsets [i * 100], ..., and nowhere
    else. *)
Lemma fetch_loop_ext (e1 e2 : nat -> value) (key : string) (n i : nat)
    (acc : list value) :
  (forall k, (i <= k < i + n)%nat -> e1 (k * 100)%nat = e2 (k * 100)%nat) ->
  fetch_loop e1 key i n acc = fetch_loop e2 key i n acc.
Proof.
  revert i acc. induction n as [|n IH]; intros i acc Hext; simpl; [reflexivity|].
  rewrite (Hext i) by lia.
  destruct (subscript (e2 (i * 100)%nat) key) as [page| |]; simpl; try reflexivity.
  destruct (py_iter page) as [items| |]; simpl; try reflexivity.
  apply IH. intros k Hk. apply Hext. lia.
Qed.

Lemma fetch_ext (e1 e2 : nat -> value) (key : string) (max_pages : nat) :
  (forall i, (i < max_pages)%nat -> e1 (i * 100)%nat = e2 (i * 100)%nat) ->
  fetch e1 key max_pages = fetch e2 key max_pages.
Proof.
  intros H. unfold fetch. apply fetch_loop_ext. intros k Hk. apply H. lia.
Qed.

Lemma filter_Permutation {A : Type} (p : A -> bool) (l l' : list A) :
  Permutation l l' -> Permutation (filter p l) (filter p l').
Proof.
  induction 1 as [|a l l' _ IH|a b l|l1 l2 l3 _ IH1 _ IH2]; simpl.
  - constructor.
  - destruct (p a); [constructor|]; assumption.
  - destruct (p a), (p b); try reflexivity. constructor.
  - etransitivity; eassumption.
Qed.

Section LeftJoinBags.
Variables L R O : Type.
Variable matches : L -> R -> bool.
Variable both : L -> R -> O.
Variable left_only : L -> O.

Lemma join_row_Permutation (r r' : list R) (x : L) :
  Permutation r r' ->
  Permutation (join_row matches both left_only r x)
              (join_row matches both left_only r' x).
Proof.
  intros Hr. unfold join_row.
  pose proof (filter_Permutation (matches x) r r' Hr) as Hf.
  destruct (filter (matches x) r) as [|m ms].
  - apply Permutation_nil in Hf. rewrite Hf. reflexivity.
  - destruct (filter (matches x) r') as [|m' ms'].
    + symmetry in Hf. apply Permutation_nil in Hf. discriminate.
    + apply Permutation_map. assumption.
Qed.

(** The rows of a left join, as a bag, depend only on the bags of rows
    of its two arguments. *)
Lemma left_join_Permutation (l l' : list L) (r r' : list R) :
  Permutation l l' -> Permutation r r' ->
  Permutation (left_join matches both left_only l r)
              (left_join matches both left_only l' r').
Proof.
  intros Hl Hr. unfold left_join.
  transitivity (flat_map (join_row matches both left_only r') l).
  - clear Hl. induction l as [|x l IH]; simpl; [reflexivity|].
    apply Permutation_app; [apply join_row_Permutation; assumption | exact IH].
  - apply Permutation_flat_map. assumption.
Qed.
End LeftJoinBags.

Lemma sales_fact_Permutation (s s' : list Sales.row) (u u' : list Users.row) :
  Permutation s s' -> Permutation u u' ->
  Permutation (sales_fact s u) (sales_fact s' u').
Proof.
  intros Hs Hu. unfold sales_fact, join_users.
  do 2 apply Permutation_map. apply left_join_Permutation; assumption.
Qed.

Lemma df_enriched_Permutation (f f' : list Fact.row) (c c' : list Countries.row) :
  Permutation f f' -> Permutation c c' ->
  Permutation (df_enriched f c) (df_enriched f' c').
Proof.
  intros Hf Hc. unfold df_enriched, join_countries.
  apply Permutation_map. apply left_join_Permutation; assumption.
Qed.

(** The run that enumerates every table in the order of the lists. *)
Lemma notebook_run (api : endpoints) (in_order out : list Enriched.row) :
  notebook api = Ok in_order -> Permutation in_order out -> run api out.
Proof.
  unfold notebook. intros H Hperm.
  apply bind_Ok in H. destruct H as (dfc & Hdfc & H).
  apply bind_Ok in H. destruct H as (facts & Hfacts & H). injection H as <-.
  exists dfc, facts. split; [|split].
  - exists dfc. split; [assumption | reflexivity].
  - apply get_sales_df_Ok in Hfacts.
    destruct Hfacts as (us & urows & dfu & cs & srows & dfs &
                        Hus & Hur & Hdfu & Hcs & Hsr & Hdfs & ->).
    exists us, urows, dfu, dfu, cs, srows, dfs, dfs.
    repeat split; try assumption; reflexivity.
  - assumption.
Qed.

(** Every run enumerates the rows that [notebook] lists. *)
Lemma run_notebook (api : endpoints) (out : list Enriched.row) :
  run api out ->
  exists in_order, notebook api = Ok in_order /\ Permutation in_order out.
Proof.
  intros (dfc & facts & (co & Hco & Hpc) &
          (us & ur & uo & dfu & cs & sr & so & dfs &
           Hus & Hur & Huo & Hpu & Hcs & Hsr & Hso & Hps & Hf) & Hout).
  exists (df_enriched (sales_fact so uo) co). split.
  - unfold notebook, get_sales_df. rewrite Hco; simpl.
    rewrite Hus; simpl. rewrite Hur; simpl. rewrite Huo; simpl.
    rewrite Hcs; simpl. rewrite Hsr; simpl. rewrite Hso; simpl. reflexivity.
  - rewrite <- Hout. apply df_enriched_Permutation; [|assumption].
    rewrite <- Hf. apply sales_fact_Permutation; assumption.
Qed.

Lemma sales_table_deterministic (api1 api2 : endpoints) (max_pages : nat)
    (facts1 facts2 : list Fact.row) :
  (forall i, (i < max_pages)%nat -> users api1 (i * 100)%nat = users api2 (i * 100)%nat) ->
  (forall i, (i < max_pages)%nat -> carts api1 (i * 100)%nat = carts api2 (i * 100)%nat) ->
  sales_table api1 max_pages facts1 -> sales_table api2 max_pages facts2 ->
  Permutation facts1 facts2.
Proof.
  intros Hu Hc
    (us1 & ur1 & uo1 & dfu1 & cs1 & sr1 & so1 & dfs1 &
     Hus1 & Hur1 & Huo1 & Hpu1 & Hcs1 & Hsr1 & Hso1 & Hps1 & Hf1)
    (us2 & ur2 & uo2 & dfu2 & cs2 & sr2 & so2 & dfs2 &
     Hus2 & Hur2 & Huo2 & Hpu2 & Hcs2 & Hsr2 & Hso2 & Hps2 & Hf2).
  rewrite (fetch_ext _ _ "users" max_pages Hu) in Hus1.
  rewrite (fetch_ext _ _ "carts" max_pages Hc) in Hcs1.
  assert (us1 = us2) by congruence. subst us2.
  assert (cs1 = cs2) by congruence. subst cs2.
  assert (ur1 = ur2) by congruence. subst ur2.
  assert (sr1 = sr2) by congruence. subst sr2.
  assert (uo1 = uo2) by congruence. subst uo2.
  assert (so1 = so2) by congruence. subst so2.
  rewrite <- Hf1, <- Hf2. apply sales_fact_Permutation.
  - rewrite <- Hps1, <- Hps2. reflexivity.
  - rewrite <- Hpu1, <- Hpu2. reflexivity.
Qed.

(** C10: two runs whose requests receive the same responses (the
    countries document, and the twenty pages of users and of carts)
    produce the same enriched output as a bag of rows, whatever order the
    engine enumerates the tables in. *)
Theorem run_deterministic (api1 api2 : endpoints) (out1 out2 : list Enriched.row) :
  countries api1 = countries api2 ->
  (forall i, (i < 20)%nat -> users api1 (i * 100)%nat = users api2 (i * 100)%nat) ->
  (forall i, (i < 20)%nat -> carts api1 (i * 100)%nat = carts api2 (i * 100)%nat) ->
  run api1 out1 -> run api2 out2 ->
  Permutation out1 out2.
Proof.
  intros Hcountries Hu Hc
    (dfc1 & facts1 & (co1 & Hco1 & Hpc1) & Hst1 & Hout1)
    (dfc2 & facts2 & (co2 & Hco2 & Hpc2) & Hst2 & Hout2).
  rewrite Hcountries in Hco1.
  assert (co1 = co2) by congruence. subst co2.
  rewrite <- Hout1, <- Hout2. apply df_enriched_Permutation.
  - exact (sales_table_deterministic api1 api2 20 facts1 facts2 Hu Hc Hst1 Hst2).
  - rewrite <- Hpc1, <- Hpc2. reflexivity.
Qed.

Lemma run_deterministic_witness :
  Permutation Sample.two_carts_output (rev Sample.two_carts_output).
Proof.
  apply (run_deterministic Sample.two_carts Sample.two_carts_short).
  - reflexivity.
  - intros i Hi. simpl.
    destruct (Nat.ltb_spec (i * 100) 2000); [reflexivity | lia].
  - intros i Hi. simpl.
    destruct (Nat.ltb_spec (i * 100) 2000); [reflexivity | lia].
  - apply (notebook_run Sample.two_carts Sample.two_carts_output);
      [reflexivity | apply Permutation_refl].
  - apply (notebook_run Sample.two_carts_short Sample.two_carts_output);
      [reflexivity | apply Permutation_rev].
Defined.

(* ------------------------------------------------------------------ *)
(** ** Rounding of the amount (line 83) *)

Lemma pow10_pos (n : nat) : 0 < pow10 n.
Proof.
  unfold pow10. apply Z.pow_pos_nonneg; lia.
Qed.

Lemma F_round_scale (d : dec) (places : nat) : scale (F_round d places) = places.
Proof. reflexivity. Qed.






(* ------------------------------------------------------------------ *)
(** * Further properties of the notebook *)

(** ** The pagination loops (lines 50-52 and 65-67) *)

Lemma fetch_loop_pages (endpoint : nat -> value) (key : string)
    (pages : nat -> list value) (n i : nat) (acc : list value) :
  (forall k, (i <= k < i + n)%nat -> page_items endpoint key k = Ok (pages k)) ->
  fetch_loop endpoint key i n acc = Ok (acc ++ concat (map pages (seq i n)))%list.
Proof.
  revert i acc. induction n as [|n IH]; intros i acc Hp; simpl.
  - rewrite app_nil_r. reflexivity.
  - pose proof (Hp i ltac:(lia)) as Hi. unfold page_items in Hi.
    apply bind_Ok in Hi. destruct Hi as (page & Hpage & Hiter).
    rewrite Hpage; simpl. rewrite Hiter; simpl.
    rewrite IH by (intros k Hk; apply Hp; lia).
    rewrite app_assoc. reflexivity.
Qed.

(** The loop returns the items of pages 0, 1, ..., [max_pages - 1], in
    this order and without removing repetitions. *)
Theorem fetch_concatenates_pages (endpoint : nat -> value) (key : string)
    (pages : nat -> list value) (max_pages : nat) :
  (forall i, (i < max_pages)%nat -> page_items endpoint key i = Ok (pages i)) ->
  fetch endpoint key max_pages = Ok (concat (map pages (seq 0 max_pages))).
Proof.
  intros H. unfold fetch.
  rewrite (fetch_loop_pages endpoint key pages max_pages 0 []); [reflexivity|].
  intros k Hk. apply H. lia.
Qed.

Lemma fetch_concatenates_pages_witness :
  fetch (Case.two_pages "carts") "carts" 3 = Ok [VInt 1; VInt 2; VInt 3; VInt 4].
Proof.
  apply (fetch_concatenates_pages (Case.two_pages "carts") "carts"
           (fun i => match i with
                     | O => [VInt 1; VInt 2]
                     | S O => [VInt 3; VInt 4]
                     | _ => []
                     end) 3).
  intros i Hi. destruct i as [|[|[|i]]]; [reflexivity | reflexivity | reflexivity | lia].
Defined.

Lemma fetch_loop_failure (endpoint : nat -> value) (key : string) (e : exn)
    (n i j : nat) (acc : list value) :
  (i <= j < i + n)%nat ->
  (forall k, (i <= k < j)%nat -> exists items, page_items endpoint key k = Ok items) ->
  page_items endpoint key j = Raise e ->
  fetch_loop endpoint key i n acc = Raise e.
Proof.
  revert i acc. induction n as [|n IH]; intros i acc Hj Hbefore Hfail; [lia|].
  simpl. destruct (Nat.eq_dec i j) as [->|Hne].
  - unfold page_items in Hfail.
    destruct (subscript (endpoint (j * 100)%nat) key) as [page| |]; simpl in *;
      try congruence.
    destruct (py_iter page); simpl in *; congruence.
  - destruct (Hbefore i ltac:(lia)) as (items & Hi). unfold page_items in Hi.
    apply bind_Ok in Hi. destruct Hi as (page & Hpage & Hiter).
    rewrite Hpage; simpl. rewrite Hiter; simpl.
    apply IH; [lia | intros k Hk; apply Hbefore; lia | assumption].
Qed.

(** The loop stops at the first page that cannot be read (its body lacks
    the key, or the value under the key cannot be iterated) and raises
    that page's exception; the pages fetched before are lost with it. *)
Theorem fetch_raises_first_failure (endpoint : nat -> value) (key : string)
    (e : exn) (max_pages j : nat) :
  (j < max_pages)%nat ->
  (forall k, (k < j)%nat -> exists items, page_items endpoint key k = Ok items) ->
  page_items endpoint key j = Raise e ->
  fetch endpoint key max_pages = Raise e.
Proof.
  intros Hj Hbefore Hfail. unfold fetch.
  apply (fetch_loop_failure endpoint key e max_pages 0 j []);
    [lia | intros k Hk; apply Hbefore; lia | assumption].
Qed.

Lemma fetch_raises_first_failure_witness :
  fetch (Case.broken_page "users" [Sample.user 7 (VStr "US")]) "users" 20
  = Raise KeyError.
Proof.
  apply (fetch_raises_first_failure
           (Case.broken_page "users" [Sample.user 7 (VStr "US")]) "users"
           KeyError 20 1).
  - lia.
  - intros k Hk. assert (k = 0%nat) as -> by lia.
    exists [Sample.user 7 (VStr "US")]. reflexivity.
  - reflexivity.
Defined.

(* ------------------------------------------------------------------ *)
(** ** The derived country code (lines 54-60) *)












(** The code is computed from the first two characters of the country
    alone: two users whose countries begin alike get the same code. *)
Theorem country_code_from_first_two_characters
    (u1 u2 address1 address2 : value) (s1 s2 : string) :
  subscript u1 "address" = Ok address1 ->
  subscript address1 "country" = Ok (VStr s1) ->
  subscript u2 "address" = Ok address2 ->
  subscript address2 "country" = Ok (VStr s2) ->
  s1 <> "" -> s2 <> "" ->
  prefix 2 s1 = prefix 2 s2 ->
  derive_country_code u1 = derive_country_code u2.
Proof.
  intros Ha1 Hc1 Ha2 Hc2 Hs1 Hs2 Hp.
  rewrite (derive_country_code_of_string u1 address1 s1 Ha1 Hc1 Hs1).
  rewrite (derive_country_code_of_string u2 address2 s2 Ha2 Hc2 Hs2).
  rewrite Hp. reflexivity.
Qed.

Lemma country_code_from_first_two_characters_witness :
  derive_country_code (Sample.user 1 (VStr "United States"))
  = derive_country_code (Sample.user 2 (VStr "United Kingdom")).
Proof.
  apply (country_code_from_first_two_characters
           (Sample.user 1 (VStr "United States")) (Sample.user 2 (VStr "United Kingdom"))
           (VDict [("country", VStr "United States")])
           (VDict [("country", VStr "United Kingdom")])
           "United States" "United Kingdom");
    try reflexivity; discriminate.
Defined.

(** A country that is neither a string nor falsy makes the expression
    raise: a number other than zero or [true] cannot be sliced
    ([TypeError]); a non-empty list can, but has no [upper]
    ([AttributeError]). *)
Theorem country_of_other_type_raises (u address country : value) :
  subscript u "address" = Ok address ->
  subscript address "country" = Ok country ->
  truthy country = true ->
  match country with
  | VInt _ | VFloat _ | VBool _ => derive_country_code u = Raise TypeError
  | VList _ => derive_country_code u = Raise AttributeError
  | _ => True
  end.
Proof.
  intros Ha Hc Ht. unfold derive_country_code.
  rewrite Ha; simpl. rewrite Hc; simpl. unfold py_or. rewrite Ht.
  destruct country; simpl; trivial.
Qed.

Lemma country_of_other_type_raises_witness :
  derive_country_code (Sample.user 7 (VInt 51)) = Raise TypeError
  /\ derive_country_code (Sample.user 7 (VList [VStr "Peru"])) = Raise AttributeError.
Proof.
  split.
  - apply (country_of_other_type_raises (Sample.user 7 (VInt 51))
             (VDict [("country", VInt 51)]) (VInt 51)); reflexivity.
  - apply (country_of_other_type_raises (Sample.user 7 (VList [VStr "Peru"]))
             (VDict [("country", VList [VStr "Peru"])]) (VList [VStr "Peru"]));
      reflexivity.
Defined.

(* ------------------------------------------------------------------ *)
(** ** Failures of get_countries_df (lines 26-38) *)

(** When the body of the countries request is not a list: an object (as
    the API's error bodies are) or a non-empty string is iterated, and its
    elements, strings, have no [get]; an empty object or string leaves no
    rows for [createDataFrame]; [null], a number or a boolean cannot be
    iterated. *)
Theorem countries_response_not_a_list (data : value) :
  match data with
  | VDict (_ :: _) | VStr (String _ _) => get_countries_df data = Raise AttributeError
  | VDict [] | VStr EmptyString => get_countries_df data = Raise ValueError
  | VNone | VBool _ | VInt _ | VFloat _ => get_countries_df data = Raise TypeError
  | VList _ => True
  end.
Proof.
  destruct data as [| | | |s|l|kv]; try reflexivity; try exact I.
  - destruct s; reflexivity.
  - destruct kv; reflexivity.
Qed.

Lemma rows_all_skipped (entries : list value) :
  Forall (fun c => exists code, dict_get c "cca2" = Ok code /\ truthy code = false)
    entries ->
  rows entries = Ok [].
Proof.
  induction 1 as [|c rest (code & Hc & Ht) _ IH]; [reflexivity|].
  rewrite (rows_skip c rest code Hc Ht). exact IH.
Qed.

(** Dropping entries without a code is silent only while some entry is
    left: when no entry of the response has a truthy ["cca2"], the list of
    rows is empty and [createDataFrame] raises [ValueError]. *)
Theorem countries_without_any_code (data : value) (entries : list value) :
  py_iter data = Ok entries ->
  Forall (fun c => exists code, dict_get c "cca2" = Ok code /\ truthy code = false)
    entries ->
  get_countries_df data = Raise ValueError.
Proof.
  intros Hiter Hall. unfold get_countries_df.
  rewrite Hiter; simpl. rewrite (rows_all_skipped entries Hall). reflexivity.
Qed.

Lemma countries_without_any_code_witness :
  get_countries_df (VList [Sample.entry_without_code;
                           VDict [("cca2", VStr ""); ("name", VStr "nowhere")]])
  = Raise ValueError.
Proof.
  apply (countries_without_any_code _
           [Sample.entry_without_code;
            VDict [("cca2", VStr ""); ("name", VStr "nowhere")]]);
    [reflexivity|].
  repeat constructor.
  - exists VNone. split; reflexivity.
  - exists (VStr ""). split; reflexivity.
Defined.

Lemma rows_app (before rest : list value) (rs : list CountriesDict.row) :
  rows before = Ok rs ->
  rows (before ++ rest)%list = (rs' <- rows rest ;; Ok (rs ++ rs')%list).
Proof.
  revert rs; induction before as [|c before IH]; intros rs H; simpl in *.
  - injection H as <-. destruct (rows rest); reflexivity.
  - apply bind_Ok in H. destruct H as (code & Hc & H). rewrite Hc; simpl.
    destruct (truthy code).
    + invert_ok H. subst rs. rewrite E; simpl. rewrite (IH _ E0).
      destruct (rows rest); reflexivity.
    + apply IH; assumption.
Qed.

(** An entry that has a code is read in full: when building its row
    raises (its ["name"] is absent, say), the whole load raises that
    exception, whatever the entries after it are. *)
Theorem country_entry_failure_aborts (data : value) (before after : list value)
    (c : value) (rs : list CountriesDict.row) (e : exn) :
  py_iter data = Ok (before ++ c :: after)%list ->
  rows before = Ok rs ->
  has_code c = true ->
  country_dict c = Raise e ->
  get_countries_df data = Raise e.
Proof.
  intros Hiter Hbefore Hcode Hfail. unfold get_countries_df.
  rewrite Hiter; simpl. rewrite (rows_app before (c :: after) rs Hbefore).
  simpl. unfold has_code in Hcode.
  destruct (dict_get c "cca2") as [code| |]; try discriminate; simpl.
  rewrite Hcode, Hfail. reflexivity.
Qed.

Lemma country_entry_failure_aborts_witness :
  get_countries_df (VList [Sample.entry "US" "United States" "Americas";
                           Case.entry_without_name;
                           Sample.entry "PE" "Peru" "Americas"])
  = Raise KeyError.
Proof.
  apply (country_entry_failure_aborts _
           [Sample.entry "US" "United States" "Americas"]
           [Sample.entry "PE" "Peru" "Americas"]
           Case.entry_without_name
           [CountriesDict.mk (VStr "US") (VStr "United States") (VStr "Americas")]);
    reflexivity.
Defined.

(* ------------------------------------------------------------------ *)
(** ** Failures of get_sales_df (lines 48-77) *)

Lemma mapM_first_failure {A B : Type} (f : A -> outcome B) (before after : list A)
    (x : A) (ys : list B) (e : exn) :
  mapM f before = Ok ys -> f x = Raise e ->
  mapM f (before ++ x :: after)%list = Raise e.
Proof.
  revert ys; induction before as [|a before IH]; intros ys H Hx; simpl in *.
  - rewrite Hx. reflexivity.
  - invert_ok H. rewrite E; simpl. rewrite (IH _ E0 Hx). reflexivity.
Qed.

(** Without fetched users, and without fetched carts, there is no fact
    table: [createDataFrame] raises [ValueError] on the empty list of
    rows.  This is what a call with [max_pages = 0] does. *)
Theorem sales_df_needs_users_and_carts (api : endpoints) (max_pages : nat) :
  get_sales_df api 0 = Raise ValueError
  /\ (fetch (users api) "users" max_pages = Ok [] ->
      get_sales_df api max_pages = Raise ValueError)
  /\ (forall us users_rows df_users,
        fetch (users api) "users" max_pages = Ok us ->
        mapM users_row us = Ok users_rows ->
        createDataFrame users_schema users_rows = Ok df_users ->
        fetch (carts api) "carts" max_pages = Ok [] ->
        get_sales_df api max_pages = Raise ValueError).
Proof.
  split; [reflexivity|]. split.
  - intros H. unfold get_sales_df. rewrite H. reflexivity.
  - intros us urows dfu Hus Hur Hdfu Hcs. unfold get_sales_df.
    rewrite Hus; simpl. rewrite Hur; simpl. rewrite Hdfu; simpl.
    rewrite Hcs. reflexivity.
Qed.

Lemma sales_df_needs_users_and_carts_witness :
  get_sales_df
    {| countries := VList [];
       users := Sample.single_page "users" [Sample.user 7 (VStr "US")];
       carts := Sample.single_page "carts" [] |} 20
  = Raise ValueError.
Proof.
  apply (proj2 (proj2 (sales_df_needs_users_and_carts
                         {| countries := VList [];
                            users := Sample.single_page "users" [Sample.user 7 (VStr "US")];
                            carts := Sample.single_page "carts" [] |} 20))
           [Sample.user 7 (VStr "US")]
           [UsersDict.mk (VInt 7) "US"]
           [Users.mk 7 "US"]); reflexivity.
Defined.

(** One record that cannot be turned into a row aborts the build: a user
    record (without ["id"], say) before any cart is requested, a cart
    record after the users table was made; the rows built before it are
    lost. *)
Theorem bad_record_aborts_sales_df (api : endpoints) (max_pages : nat) (e : exn) :
  (forall before after u users_rows,
      fetch (users api) "users" max_pages = Ok (before ++ u :: after)%list ->
      mapM users_row before = Ok users_rows ->
      users_row u = Raise e ->
      get_sales_df api max_pages = Raise e)
  /\ (forall us users_rows df_users before after cart sales_rows,
        fetch (users api) "users" max_pages = Ok us ->
        mapM users_row us = Ok users_rows ->
        createDataFrame users_schema users_rows = Ok df_users ->
        fetch (carts api) "carts" max_pages = Ok (before ++ cart :: after)%list ->
        mapM sales_row before = Ok sales_rows ->
        sales_row cart = Raise e ->
        get_sales_df api max_pages = Raise e).
Proof.
  split.
  - intros before after u urows Hus Hbefore Hu. unfold get_sales_df.
    rewrite Hus; simpl.
    rewrite (mapM_first_failure users_row before after u urows e Hbefore Hu).
    reflexivity.
  - intros us urows dfu before after cart srows Hus Hur Hdfu Hcs Hbefore Hcart.
    unfold get_sales_df.
    rewrite Hus; simpl. rewrite Hur; simpl. rewrite Hdfu; simpl. rewrite Hcs; simpl.
    rewrite (mapM_first_failure sales_row before after cart srows e Hbefore Hcart).
    reflexivity.
Qed.

Lemma bad_record_aborts_sales_df_witness :
  get_sales_df
    {| countries := VList [];
       users := Sample.single_page "users"
                  [Sample.user 7 (VStr "US"); Case.user_without_id];
       carts := Sample.single_page "carts" [Sample.cart 1 7 (VInt 40)] |} 20
  = Raise KeyError.
Proof.
  apply (proj1 (bad_record_aborts_sales_df
                  {| countries := VList [];
                     users := Sample.single_page "users"
                                [Sample.user 7 (VStr "US"); Case.user_without_id];
                     carts := Sample.single_page "carts" [Sample.cart 1 7 (VInt 40)] |}
                  20 KeyError)
           [Sample.user 7 (VStr "US")] [] Case.user_without_id
           [UsersDict.mk (VInt 7) "US"]); reflexivity.
Defined.

(* ------------------------------------------------------------------ *)
(** ** What the two joins put in their output *)

Section LeftJoinRows.
Variables L R O : Type.
Variable matches : L -> R -> bool.
Variable both : L -> R -> O.
Variable left_only : L -> O.

Lemma filter_nil_iff (p : R -> bool) (r : list R) :
  filter p r = [] <-> forall y, In y r -> p y = false.
Proof.
  induction r as [|a r IH]; simpl.
  - split; [intros _ y [] | reflexivity].
  - destruct (p a) eqn:Ea; split.
    + discriminate.
    + intros H. specialize (H a (or_introl eq_refl)). congruence.
    + intros H y [<-|Hy]; [assumption | apply IH; assumption].
    + intros H. apply IH. intros y Hy. apply H. right; assumption.
Qed.

(** The rows of a left join: one per matching pair, and one for each left
    row that matches nothing. *)
Lemma left_join_In_iff (l : list L) (r : list R) (o : O) :
  In o (left_join matches both left_only l r) <->
  exists x, In x l /\
    (((forall y, In y r -> matches x y = false) /\ o = left_only x)
     \/ exists y, In y r /\ matches x y = true /\ o = both x y).
Proof.
  unfold left_join. rewrite in_flat_map. split.
  - intros (x & Hx & Ho). exists x. split; [assumption|].
    unfold join_row in Ho. destruct (filter (matches x) r) as [|m ms] eqn:E.
    + destruct Ho as [<-|[]]. left. split; [|reflexivity].
      apply filter_nil_iff. assumption.
    + right. apply in_map_iff in Ho. destruct Ho as (y & <- & Hy).
      rewrite <- E in Hy. apply filter_In in Hy. destruct Hy as [Hin Ht].
      exists y. auto.
  - intros (x & Hx & [(Hno & ->)|(y & Hy & Ht & ->)]); exists x;
      (split; [assumption|]); unfold join_row.
    + apply filter_nil_iff in Hno. rewrite Hno. left; reflexivity.
    + assert (Hin : In y (filter (matches x) r)) by (apply filter_In; auto).
      destruct (filter (matches x) r) as [|m ms]; [contradiction|].
      apply in_map. assumption.
Qed.

Lemma left_join_length (l : list L) (r : list R) :
  length (left_join matches both left_only l r)
  = list_sum (map (fun x => Nat.max 1 (length (filter (matches x) r))) l).
Proof.
  unfold left_join. induction l as [|x l IH]; simpl; [reflexivity|].
  rewrite length_app, IH, join_row_length. reflexivity.
Qed.

Lemma left_join_length_le (l : list L) (r : list R) :
  (length (left_join matches both left_only l r)
   <= length l * Nat.max 1 (length r))%nat.
Proof.
  rewrite left_join_length. induction l as [|x l IH]; [simpl; lia|].
  cbn [map length]. rewrite Nat.mul_succ_l.
  pose proof (filter_length_le (matches x) r).
  unfold list_sum in *. cbn [fold_right]. lia.
Qed.
End LeftJoinRows.

(** The rows of the enriched table are exactly these: for a fact row
    whose code equals the code of country rows, one row per such country,
    carrying that country's name and region; for a fact row whose code is
    null or equals no country's code, one row with both null. *)
Theorem enriched_rows_characterised (df_sales : list Fact.row)
    (df_countries : list Countries.row) (e : Enriched.row) :
  In e (df_enriched df_sales df_countries) <->
  exists f, In f df_sales /\
    (((forall c, In c df_countries ->
                 Fact.country_code f <> Some (Countries.country_code c))
      /\ e = Enriched.mk (Fact.sale_id f) (Fact.amount f) None None)
     \/ exists c, In c df_countries
                  /\ Fact.country_code f = Some (Countries.country_code c)
                  /\ e = Enriched.mk (Fact.sale_id f) (Fact.amount f)
                           (Some (Countries.country_name c)) (Countries.region c)).
Proof.
  unfold df_enriched, join_countries. rewrite in_map_iff. split.
  - intros (j & <- & Hj). apply left_join_In_iff in Hj.
    destruct Hj as (f & Hf & [(Hno & ->)|(c & Hc & Hm & ->)]); exists f;
      (split; [assumption|]).
    + left. split; [|reflexivity]. intros c Hc Heq.
      apply code_matches_true in Heq. rewrite (Hno c Hc) in Heq. discriminate.
    + right. exists c. apply code_matches_true in Hm. auto.
  - intros (f & Hf & [(Hno & ->)|(c & Hc & Hm & ->)]).
    + exists (FactCountries.mk (Fact.country_code f) (Fact.sale_id f)
                (Fact.amount f) None None).
      split; [reflexivity|]. apply left_join_In_iff. exists f.
      split; [assumption|]. left. split; [|reflexivity].
      intros c Hc. destruct (code_matches f c) eqn:E; [|reflexivity].
      apply code_matches_true in E. exfalso. exact (Hno c Hc E).
    + exists (FactCountries.mk (Fact.country_code f) (Fact.sale_id f)
                (Fact.amount f) (Some (Countries.country_name c))
                (Countries.region c)).
      split; [reflexivity|]. apply left_join_In_iff. exists f.
      split; [assumption|]. right. exists c. apply code_matches_true in Hm. auto.
Qed.

Lemma enriched_rows_characterised_witness :
  In (Enriched.mk "1" (mkdec 1235 2) (Some "United States of America") (Some "Americas"))
     (df_enriched [Sample.sale_us; Sample.sale_no_user]
        [Sample.peru; Sample.united_states; Sample.united_states_again]).
Proof.
  apply (proj2 (enriched_rows_characterised
                  [Sample.sale_us; Sample.sale_no_user]
                  [Sample.peru; Sample.united_states; Sample.united_states_again]
                  _)).
  exists Sample.sale_us. split; [simpl; auto|].
  right. exists Sample.united_states_again. simpl. auto.
Defined.

(** The rows of the fact table are exactly these: for a cart whose
    [userId] is the id of fetched users, one row per such user, carrying
    that user's code; for a cart of an unknown user, one row with a null
    code; the amount is rounded in both. *)
Theorem fact_rows_characterised (df_sales : list Sales.row)
    (df_users : list Users.row) (f : Fact.row) :
  In f (sales_fact df_sales df_users) <->
  exists s, In s df_sales /\
    (((forall u, In u df_users -> Users.userId u <> Sales.userId s)
      /\ f = Fact.mk (Sales.sale_id s) None (F_round (Sales.amount s) 2))
     \/ exists u, In u df_users
                  /\ Users.userId u = Sales.userId s
                  /\ f = Fact.mk (Sales.sale_id s) (Some (Users.country_code u))
                           (F_round (Sales.amount s) 2)).
Proof.
  unfold sales_fact, join_users. rewrite map_map, in_map_iff. split.
  - intros (j & <- & Hj). apply left_join_In_iff in Hj.
    destruct Hj as (s & Hs & [(Hno & ->)|(u & Hu & Hm & ->)]); exists s;
      (split; [assumption|]).
    + left. split; [|reflexivity]. intros u Hu Heq.
      specialize (Hno u Hu). simpl in Hno. apply Z.eqb_neq in Hno. congruence.
    + right. exists u. apply Z.eqb_eq in Hm. auto.
  - intros (s & Hs & [(Hno & ->)|(u & Hu & Hm & ->)]).
    + exists (SalesUsers.mk (Sales.userId s) (Sales.sale_id s) (Sales.amount s) None).
      split; [reflexivity|]. apply left_join_In_iff. exists s.
      split; [assumption|]. left. split; [|reflexivity].
      intros u Hu. apply Z.eqb_neq. intros Heq. exact (Hno u Hu (eq_sym Heq)).
    + exists (SalesUsers.mk (Sales.userId s) (Sales.sale_id s) (Sales.amount s)
                (Some (Users.country_code u))).
      split; [reflexivity|]. apply left_join_In_iff. exists s.
      split; [assumption|]. right. exists u.
      split; [assumption|]. split; [|reflexivity]. apply Z.eqb_eq. auto.
Qed.

Lemma fact_rows_characterised_witness :
  In (Fact.mk "9" None (mkdec 1235 2))
     (sales_fact [Sales.mk "9" 42 (mkdec 12345 3)] [Users.mk 7 "US"; Users.mk 8 "PE"]).
Proof.
  apply (proj2 (fact_rows_characterised
                  [Sales.mk "9" 42 (mkdec 12345 3)]
                  [Users.mk 7 "US"; Users.mk 8 "PE"] _)).
  exists (Sales.mk "9" 42 (mkdec 12345 3)). split; [simpl; auto|].
  left. split; [|reflexivity].
  intros u [<-|[<-|[]]]; simpl; discriminate.
Defined.

(** The number of enriched rows: each fact row counts once per country
    row it joins with, and once when it joins with none.  So the table has
    at least as many rows as the fact table, and at most that many times
    the number of country rows. *)
Theorem enriched_row_count (df_sales : list Fact.row)
    (df_countries : list Countries.row) :
  length (df_enriched df_sales df_countries)
  = list_sum (map (fun f => Nat.max 1 (partners df_countries f)) df_sales)
  /\ (length df_sales <= length (df_enriched df_sales df_countries))%nat
  /\ (length (df_enriched df_sales df_countries)
      <= length df_sales * Nat.max 1 (length df_countries))%nat.
Proof.
  unfold df_enriched, join_countries. rewrite length_map. split; [|split].
  - apply left_join_length.
  - apply left_join_length_ge.
  - apply left_join_length_le.
Qed.

(* ------------------------------------------------------------------ *)
(** ** More on F.round (line 83) *)

Lemma pow10_split (s p : nat) :
  (s <= p)%nat -> pow10 p = pow10 s * pow10 (p - s).
Proof.
  intros H. unfold pow10. rewrite <- Z.pow_add_r by lia. f_equal. lia.
Qed.

Lemma F_round_exact_value (d : dec) (places : nat) :
  (scale d <= places)%nat -> dec_same (F_round d places) d.
Proof.
  destruct d as [m s]. unfold dec_same, F_round. cbn [mant scale]. intros Hs.
  rewrite (pow10_split s places Hs).
  pose proof (pow10_pos s) as HS.
  set (S := pow10 s) in *. set (K := pow10 (places - s)). clearbody S K.
  replace (2 * Z.abs m * (S * K) + S) with (Z.abs m * K * (2 * S) + S) by ring.
  rewrite Z.div_add_l by lia. rewrite (Z.div_small S (2 * S)) by lia.
  rewrite Z.add_0_r.
  transitivity (Z.abs m * Z.sgn m * (S * K)); [ring|].
  rewrite Z.abs_sgn. reflexivity.
Qed.

(** Rounding keeps a number that already has no more fractional digits
    than asked for (a whole total such as [40] stays 40.00), and rounding
    twice is rounding once. *)
Theorem F_round_keeps_short_decimals (d : dec) (places : nat) :
  ((scale d <= places)%nat -> dec_same (F_round d places) d)
  /\ F_round (F_round d places) places = F_round d places.
Proof.
  split; [apply F_round_exact_value|].
  pose proof (F_round_exact_value (F_round d places) places) as H.
  specialize (H (Nat.le_refl _)). unfold dec_same in H.
  rewrite !F_round_scale in H.
  apply Z.mul_reg_r in H; [|pose proof (pow10_pos places); lia].
  unfold F_round at 1. unfold F_round at 1 in H. cbn [mant scale] in *.
  rewrite H. reflexivity.
Qed.

Lemma F_round_keeps_short_decimals_witness :
  dec_same (F_round (mkdec 40 0) 2) (mkdec 40 0).
Proof.
  apply (proj1 (F_round_keeps_short_decimals (mkdec 40 0) 2)). simpl. lia.
Defined.

(** HALF_UP: a number half-way between two neighbours goes to the one
    farther from zero, and rounding commutes with negation. *)
Theorem F_round_half_up (d : dec) (places : nat) :
  F_round (dec_opp d) places = dec_opp (F_round d places)
  /\ forall k,
       2 * Z.abs (mant d) * pow10 places = (2 * k + 1) * pow10 (scale d) ->
       mant (F_round d places) = Z.sgn (mant d) * (k + 1).
Proof.
  destruct d as [m s]. unfold dec_opp, F_round. cbn [mant scale]. split.
  - rewrite Z.abs_opp, Z.sgn_opp. f_equal. ring.
  - intros k Hk. rewrite Hk. pose proof (pow10_pos s) as HS.
    replace ((2 * k + 1) * pow10 s + pow10 s) with ((k + 1) * (2 * pow10 s)) by ring.
    rewrite Z.div_mul by lia. reflexivity.
Qed.

Lemma F_round_half_up_witness :
  mant (F_round (mkdec (-12345) 3) 2) = Z.sgn (-12345) * (1234 + 1).
Proof.
  apply (proj2 (F_round_half_up (mkdec (-12345) 3) 2) 1234). reflexivity.
Defined.

(* ------------------------------------------------------------------ *)
(** ** From the carts to the output, when keys are keys *)

Lemma str_of_Z_round_trip (z : Z) : Z_of_str (str_of_Z z) = z.
Proof.
  unfold Z_of_str, str_of_Z.
  rewrite NilZero.isi.
  - apply DecimalZ.of_to.
  - destruct z as [|p|p]; simpl; intros H.
    + discriminate H.
    + injection H as H. exact (DecimalPos.Unsigned.to_uint_nonnil _ H).
    + discriminate H.
  - destruct z as [|p|p]; simpl; intros H.
    + discriminate H.
    + discriminate H.
    + injection H as H. exact (DecimalPos.Unsigned.to_uint_nonnil _ H).
Qed.

Lemma flat_map_repeat_once {A C : Type} (col : A -> C) (cnt : A -> nat) (l : list A) :
  (forall x, In x l -> (cnt x <= 1)%nat) ->
  flat_map (fun x => repeat (col x) (Nat.max 1 (cnt x))) l = map col l.
Proof.
  induction l as [|x l IH]; intros H; [reflexivity|].
  cbn [flat_map map]. rewrite IH by (intros; apply H; right; assumption).
  replace (Nat.max 1 (cnt x)) with 1%nat
    by (specialize (H x (or_introl eq_refl)); lia).
  reflexivity.
Qed.

Lemma enriched_columns_unique (df_sales : list Fact.row)
    (df_countries : list Countries.row) :
  NoDup (map Countries.country_code df_countries) ->
  map sale_columns (df_enriched df_sales df_countries)
  = map (fun f => (Fact.sale_id f, Fact.amount f)) df_sales.
Proof.
  intros Hnd. unfold df_enriched, join_countries. rewrite map_map.
  rewrite (left_join_left_columns code_matches _ _
             (fun f => (Fact.sale_id f, Fact.amount f)))
    by reflexivity.
  apply flat_map_repeat_once with (cnt := fun f => length (filter (code_matches f) df_countries)).
  intros f _. apply code_matches_unique. assumption.
Qed.

Lemma fact_columns_unique (df_sales : list Sales.row) (df_users : list Users.row) :
  NoDup (map Users.userId df_users) ->
  map (fun f => (Fact.sale_id f, Fact.amount f)) (sales_fact df_sales df_users)
  = map (fun s => (Sales.sale_id s, F_round (Sales.amount s) 2)) df_sales.
Proof.
  intros Hnd. unfold sales_fact, join_users. rewrite !map_map.
  rewrite (left_join_left_columns _ _ _
             (fun s => (Sales.sale_id s, F_round (Sales.amount s) 2)))
    by reflexivity.
  apply flat_map_repeat_once
    with (cnt := fun s => length (filter (fun u => Sales.userId s =? Users.userId u)
                                    df_users)).
  intros s _. apply filter_unique_key with (key := Users.userId) (k := Sales.userId s);
    [|assumption].
  intros u Hu. apply Z.eqb_eq in Hu. symmetry; exact Hu.
Qed.

Lemma users_table_keys (us : list value) (users_rows : list UsersDict.row)
    (df_users : list Users.row) :
  mapM users_row us = Ok users_rows ->
  mapM users_schema users_rows = Ok df_users ->
  NoDup (map (fun u => subscript u "id") us) ->
  NoDup (map Users.userId df_users).
Proof.
  intros Hur Hdfu Hnd.
  apply mapM_Forall2 in Hur. apply mapM_Forall2 in Hdfu.
  pose proof (Forall2_compose _ _ _ _ _ Hur Hdfu) as Hrel.
  apply (NoDup_map_Forall2 (fun u => subscript u "id") Users.userId
           (fun z => Ok (VInt z)) us df_users); [|assumption].
  eapply Forall2_impl; [|exact Hrel].
  intros u r (d & Hd & Hr). apply (users_row_schema u d r Hd Hr).
Qed.

Lemma sales_schema_columns (sales_rows : list SalesDict.row) (df_sales : list Sales.row) :
  mapM sales_schema sales_rows = Ok df_sales ->
  map (fun s => (Sales.sale_id s, F_round (Sales.amount s) 2)) df_sales
  = map (fun r => (SalesDict.sale_id r, F_round (SalesDict.amount r) 2)) sales_rows.
Proof.
  intros H. apply mapM_Forall2 in H.
  induction H as [|r s rs ss Hrs _ IH]; [reflexivity|].
  cbn [map]. rewrite IH. unfold sales_schema in Hrs. invert_ok Hrs. subst s.
  reflexivity.
Qed.

Lemma notebook_columns (api : endpoints) (in_order : list Enriched.row)
    (us : list value) (df_countries : list Countries.row) :
  notebook api = Ok in_order ->
  fetch (users api) "users" 20 = Ok us ->
  NoDup (map (fun u => subscript u "id") us) ->
  get_countries_df (countries api) = Ok df_countries ->
  NoDup (map Countries.country_code df_countries) ->
  exists cs sales_rows,
    fetch (carts api) "carts" 20 = Ok cs
    /\ mapM sales_row cs = Ok sales_rows
    /\ map sale_columns in_order
       = map (fun r => (SalesDict.sale_id r, F_round (SalesDict.amount r) 2)) sales_rows.
Proof.
  unfold notebook. intros H Hus Hndu Hdfc Hndc.
  rewrite Hdfc in H; simpl in H.
  apply bind_Ok in H. destruct H as (facts & Hfacts & H). injection H as <-.
  apply get_sales_df_Ok in Hfacts.
  destruct Hfacts as (us' & urows & dfu & cs & srows & dfs &
                      Hus' & Hur & Hdfu & Hcs & Hsr & Hdfs & ->).
  rewrite Hus in Hus'. injection Hus' as <-.
  apply createDataFrame_Ok in Hdfu. destruct Hdfu as [Hdfu _].
  apply createDataFrame_Ok in Hdfs. destruct Hdfs as [Hdfs _].
  exists cs, srows. split; [assumption|]. split; [assumption|].
  rewrite (enriched_columns_unique _ _ Hndc).
  rewrite (fact_columns_unique _ _ (users_table_keys us urows dfu Hur Hdfu Hndu)).
  apply sales_schema_columns. assumption.
Qed.

(** When no two fetched users share an id and no two rows of the country
    table share a code, every run puts the fetched carts in one-to-one
    correspondence with the output rows: the pairs (sale_id, amount) of
    the output are, as a bag, the pairs (f-string of the id, rounded
    total) of the carts, and there are as many output rows as carts. *)
Theorem one_output_row_per_cart (api : endpoints) (out : list Enriched.row)
    (us : list value) (df_countries : list Countries.row) :
  run api out ->
  fetch (users api) "users" 20 = Ok us ->
  NoDup (map (fun u => subscript u "id") us) ->
  get_countries_df (countries api) = Ok df_countries ->
  NoDup (map Countries.country_code df_countries) ->
  exists cs sales_rows,
    fetch (carts api) "carts" 20 = Ok cs
    /\ mapM sales_row cs = Ok sales_rows
    /\ Permutation (map sale_columns out)
         (map (fun r => (SalesDict.sale_id r, F_round (SalesDict.amount r) 2))
            sales_rows)
    /\ length out = length cs.
Proof.
  intros Hrun Hus Hndu Hdfc Hndc.
  apply run_notebook in Hrun. destruct Hrun as (in_order & Hnb & Hperm).
  destruct (notebook_columns api in_order us df_countries Hnb Hus Hndu Hdfc Hndc)
    as (cs & srows & Hcs & Hsr & Hcols).
  exists cs, srows. split; [assumption|]. split; [assumption|].
  assert (Hp : Permutation (map sale_columns out)
                 (map (fun r => (SalesDict.sale_id r, F_round (SalesDict.amount r) 2))
                    srows)).
  { rewrite <- Hcols. apply Permutation_map. symmetry. assumption. }
  split; [exact Hp|].
  apply Permutation_length in Hp. rewrite !length_map in Hp.
  rewrite Hp. apply (mapM_length _ _ Hsr).
Qed.

Lemma one_output_row_per_cart_witness :
  exists cs sales_rows,
    fetch (carts Sample.two_carts) "carts" 20 = Ok cs
    /\ mapM sales_row cs = Ok sales_rows
    /\ Permutation (map sale_columns (rev Sample.two_carts_output))
         (map (fun r => (SalesDict.sale_id r, F_round (SalesDict.amount r) 2))
            sales_rows)
    /\ length (rev Sample.two_carts_output) = length cs.
Proof.
  apply (one_output_row_per_cart Sample.two_carts (rev Sample.two_carts_output)
           [Sample.user 7 (VStr "US"); Sample.user 8 (VStr "peru")]
           [Sample.united_states; Sample.peru]).
  - apply (notebook_run Sample.two_carts Sample.two_carts_output);
      [reflexivity | apply Permutation_rev].
  - reflexivity.
  - simpl. repeat constructor; simpl; intuition discriminate.
  - reflexivity.
  - simpl. repeat constructor; simpl; intuition discriminate.
Defined.

(** Under the same conditions, when the fetched carts have pairwise
    distinct integer ids, [sale_id] is a key of the output: no two output
    rows share it. *)
Theorem sale_id_is_a_key (api : endpoints) (out : list Enriched.row)
    (us cs : list value) (df_countries : list Countries.row) :
  run api out ->
  fetch (users api) "users" 20 = Ok us ->
  NoDup (map (fun u => subscript u "id") us) ->
  get_countries_df (countries api) = Ok df_countries ->
  NoDup (map Countries.country_code df_countries) ->
  fetch (carts api) "carts" 20 = Ok cs ->
  (forall cart, In cart cs -> exists z, subscript cart "id" = Ok (VInt z)) ->
  NoDup (map (fun cart => subscript cart "id") cs) ->
  NoDup (map Enriched.sale_id out).
Proof.
  intros Hrun Hus Hndu Hdfc Hndc Hcs Hint Hndcs.
  apply run_notebook in Hrun. destruct Hrun as (in_order & Hnb & Hperm).
  destruct (notebook_columns api in_order us df_countries Hnb Hus Hndu Hdfc Hndc)
    as (cs' & srows & Hcs' & Hsr & Hcols).
  rewrite Hcs in Hcs'. injection Hcs' as <-.
  apply (Permutation_NoDup (Permutation_map Enriched.sale_id Hperm)).
  assert (Hids : map Enriched.sale_id in_order = map SalesDict.sale_id srows).
  { apply (f_equal (map fst)) in Hcols. rewrite !map_map in Hcols. exact Hcols. }
  rewrite Hids.
  apply (NoDup_map_Forall2 (fun cart => subscript cart "id") SalesDict.sale_id
           (fun s => Ok (VInt (Z_of_str s))) cs srows); [|assumption].
  apply mapM_Forall2 in Hsr.
  assert (Hall : Forall (fun cart => exists z, subscript cart "id" = Ok (VInt z)) cs)
    by (apply Forall_forall; assumption).
  clear - Hsr Hall. induction Hsr as [|cart r cs srows Hr _ IH]; constructor.
  - inversion Hall as [|? ? (z & Hz) _]; subst.
    apply sales_row_Ok in Hr. destruct Hr as (cid & _ & _ & Hid & Hfmt & _).
    rewrite Hz in Hid. injection Hid as <-. simpl in Hfmt. injection Hfmt as <-.
    rewrite str_of_Z_round_trip. assumption.
  - apply IH. inversion Hall; assumption.
Qed.

Lemma sale_id_is_a_key_witness :
  NoDup (map Enriched.sale_id (rev Sample.two_carts_output)).
Proof.
  apply (sale_id_is_a_key Sample.two_carts (rev Sample.two_carts_output)
           [Sample.user 7 (VStr "US"); Sample.user 8 (VStr "peru")]
           [Sample.cart 1 7 (VFloat (mkdec 12345 3));
            Sample.cart 2 8 (VInt 40);
            Sample.cart 3 9 (VFloat (mkdec 5 1))]
           [Sample.united_states; Sample.peru]).
  - apply (notebook_run Sample.two_carts Sample.two_carts_output);
      [reflexivity | apply Permutation_rev].
  - reflexivity.
  - simpl. repeat constructor; simpl; intuition discriminate.
  - reflexivity.
  - simpl. repeat constructor; simpl; intuition discriminate.
  - reflexivity.
  - intros cart [<-|[<-|[<-|[]]]]; eexists; reflexivity.
  - simpl. repeat constructor; simpl; intuition discriminate.
Defined.

(** The f-string of line 71 keeps integer ids apart (different integers
    give different [sale_id]s), but not the type of the id: a cart whose
    id is the string of digits gets the [sale_id] of the integer. *)
Theorem sale_id_of_integer_id :
  (forall a b, py_format (VInt a) = py_format (VInt b) -> a = b)
  /\ (forall z, py_format (VStr (str_of_Z z)) = py_format (VInt z)).
Proof.
  split; [|reflexivity].
  intros a b H. simpl in H. injection H as H.
  rewrite <- (str_of_Z_round_trip a), <- (str_of_Z_round_trip b), H. reflexivity.
Qed.

Lemma sale_id_of_integer_id_witness :
  Z_of_str "1905" = 1905 /\ py_format (VStr "1905") = py_format (VInt 1905).
Proof.
  split.
  - apply (proj1 sale_id_of_integer_id (Z_of_str "1905") 1905). reflexivity.
  - apply (proj2 sale_id_of_integer_id 1905).
Defined.
